(** * A shallow embedding of the Vultisig demo front-end

    The development follows the TypeScript sources:

    - [LocalStorage] and [PrefixedStorage]: the storage adapter at the top of
      [src/secure-wallet.ts];
    - [Sdk]: the singleton of [src/sdk.ts];
    - [SecureWallet]: the two-tab simulation of [src/secure-wallet.ts];
    - [MultiDevice]: the real-device page, [src/unnamed/part_001];
    - [SdkApi]: the functions [src/sdk.ts] exports besides the singleton;
    - [FastVaultPage]: the fast-vault page, the script that follows the
      Vite configuration in [src/vite.config.ts].

    The SDK, the DOM and the browser are outside the repository.  Whatever
    they answer during a call is an explicit argument of the embedded function
    (an environment record), and the calls made to the SDK are returned as a
    log, so that every function below is a total, executable state
    transformer.

    An [async] function is run from its first statement to its last: what
    another handler could do to the page while the function awaits is not
    part of its embedding.  Two functions are cut at the [await] the
    properties need: [createSecureVault] (the state while the SDK call is
    awaited) and [sendTransaction] of the real-device page (before and after
    [vault.sign]).  [render] only reads the state and is left out, except for
    the two conditions under which it offers the approval banner and the send
    form. *)

From Stdlib Require Import String Ascii List ZArith Bool Arith Lia DecimalString.
From Stdlib Require Import Floats.PrimFloat Floats.FloatOps Floats.SpecFloat.
Import ListNotations.
Open Scope string_scope.
Set Warnings "-inexact-float".
Set Default Proof Using "Type".

(** ** JavaScript values *)

Module JS.

(** The outcome of running a piece of code: it returns, or it throws an
    [Error] of which the sources only ever read [err.message]. *)
Inductive completion (A : Type) : Type :=
| Return (a : A)
| Throw (message : string).
Arguments Return {A} a.
Arguments Throw {A} message.

Definition bind {A B : Type} (c : completion A) (k : A -> completion B) : completion B :=
  match c with
  | Return a => k a
  | Throw m => Throw m
  end.

(** Truthiness of a string: only the empty string is falsy. *)
Definition truthy (s : string) : bool := negb (s =? "").

(** Truthiness of a [string | null | undefined]. *)
Definition truthy_opt (s : option string) : bool :=
  match s with
  | Some s' => truthy s'
  | None => false
  end.

(** [s || d] on a [string | undefined]. *)
Definition or_else (s : option string) (d : string) : string :=
  match s with
  | Some s' => if truthy s' then s' else d
  | None => d
  end.

(** [s.startsWith(p)]. *)
Definition startsWith (s p : string) : bool := String.prefix p s.

(** [s.slice(n)] for [0 <= n]. *)
Definition slice (n : nat) (s : string) : string :=
  String.substring n (String.length s - n) s.

(** [s.slice(0, n)]. *)
Definition slice_to (n : nat) (s : string) : string :=
  String.substring 0 (Nat.min n (String.length s)) s.

(** A JavaScript number is an IEEE 754 binary64 value. *)
Definition number : Type := float.

Definition isNaN (x : number) : bool := negb (PrimFloat.eqb x x).

(** [x || 0] on a [number | null]: [null], [0], [-0] and [NaN] are falsy. *)
Definition number_or_zero (x : option number) : number :=
  match x with
  | Some v => if isNaN v || PrimFloat.eqb v 0%float then 0%float else v
  | None => 0%float
  end.

(** [Math.max(0, x)]. *)
Definition max_zero (x : number) : number :=
  if isNaN x then x else if PrimFloat.ltb 0%float x then x else 0%float.

(** [BigInt(Math.floor(x))]: the floor of a finite number, a [RangeError]
    on [NaN] and on the infinities. *)
Definition BigInt_floor (x : number) : completion Z :=
  match Prim2SF x with
  | S754_zero _ => Return 0%Z
  | S754_finite negative m e =>
      let signed := if negative then Z.neg m else Z.pos m in
      Return (if (0 <=? e)%Z then signed * 2 ^ e else signed / 2 ^ (- e))%Z
  | S754_infinity _ => Throw "The number Infinity cannot be converted to a BigInt because it is not an integer"
  | S754_nan => Throw "The number NaN cannot be converted to a BigInt because it is not an integer"
  end.

End JS.
Import JS.

(** ** The browser's [localStorage] *)

Module LocalStorage.

(** Keys in the order [localStorage.key(i)] enumerates them, each with its
    value.  [setItem] keeps the position of a key that is already there and
    appends a new one. *)
Definition t : Type := list (string * string).

Definition getItem (ls : t) (k : string) : option string :=
  option_map snd (find (fun e => fst e =? k) ls).

Fixpoint setItem (ls : t) (k v : string) : t :=
  match ls with
  | [] => [(k, v)]
  | (k', v') :: rest =>
      if k' =? k then (k, v) :: rest else (k', v') :: setItem rest k v
  end.

Definition removeItem (ls : t) (k : string) : t :=
  filter (fun e => negb (fst e =? k)) ls.

Definition key (ls : t) (i : nat) : option string :=
  option_map fst (nth_error ls i).

Definition length (ls : t) : nat := List.length ls.

Definition keys (ls : t) : list string := map fst ls.

End LocalStorage.

(** ** [class PrefixedStorage] *)

Module PrefixedStorage.

Record t : Type := { prefix : string }.

(** The template [`${this.prefix}:${key}`]. *)
Definition storageKey (this : t) (key : string) : string :=
  prefix this ++ ":" ++ key.

(** The template [`${this.prefix}:`]. *)
Definition marker (this : t) : string := prefix this ++ ":".

(** The loop shared by [clear] and [list]:
    [for (let i = 0; i < localStorage.length; i++)], pushing [f key] for
    every key that starts with the marker.  [n] counts the iterations left. *)
Fixpoint scan (ls : LocalStorage.t) (this : t) (f : string -> string)
    (i n : nat) (acc : list string) : list string :=
  match n with
  | O => acc
  | S n' =>
      match LocalStorage.key ls i with
      | Some k =>
          if startsWith k (marker this)
          then scan ls this f (S i) n' (acc ++ [f k])%list
          else scan ls this f (S i) n' acc
      | None => scan ls this f (S i) n' acc
      end
  end.

Section Codec.

(** [JSON.stringify] and [JSON.parse] at the type of the stored values. *)
Variable T : Type.
Variable JSON_stringify : T -> string.
Variable JSON_parse : string -> completion T.

(** [get]: [None] is the [null] of a missing (or empty) entry. *)
Definition get (this : t) (ls : LocalStorage.t) (key : string) : completion (option T) :=
  match LocalStorage.getItem ls (storageKey this key) with
  | Some value =>
      if truthy value
      then bind (JSON_parse value) (fun v => Return (Some v))
      else Return None
  | None => Return None
  end.

Definition set (this : t) (ls : LocalStorage.t) (key : string) (value : T) : LocalStorage.t :=
  LocalStorage.setItem ls (storageKey this key) (JSON_stringify value).

End Codec.

Definition remove (this : t) (ls : LocalStorage.t) (key : string) : LocalStorage.t :=
  LocalStorage.removeItem ls (storageKey this key).

Definition clear (this : t) (ls : LocalStorage.t) : LocalStorage.t :=
  let keysToDelete := scan ls this (fun k => k) 0 (LocalStorage.length ls) [] in
  fold_left LocalStorage.removeItem keysToDelete ls.

Definition list (this : t) (ls : LocalStorage.t) : list string :=
  scan ls this (slice (String.length (prefix this) + 1)) 0 (LocalStorage.length ls) [].

(** One store's prefix extends the other's. *)
Definition extends (p q : t) : Prop := exists r, prefix p = prefix q ++ r.

End PrefixedStorage.

(** ** [src/sdk.ts]: the SDK singleton *)

Module Sdk.

(** A [Vultisig] object is known by its reference: the n-th object built by
    [new Vultisig(...)] has reference [n]. *)
Definition Vultisig : Type := nat.

(** The module variable [sdkInstance], with what the page did to the SDK so
    far: how many objects were constructed, and on which of them
    [initialize()] was awaited to completion. *)
Record Module_state : Type := {
  sdkInstance : option Vultisig;
  constructed : nat;
  initialized : list Vultisig
}.

(** The module as loaded: [let sdkInstance: Vultisig | null = null]. *)
Definition loaded : Module_state :=
  {| sdkInstance := None; constructed := 0; initialized := [] |}.

(** [PASSWORD_CACHE_TTL = 5 * 60 * 1000]. *)
Definition PASSWORD_CACHE_TTL : Z := 5 * 60 * 1000.

(** [initializeSDK()]; [initialize] is what [await sdkInstance.initialize()]
    does in this call: it resolves, or it rejects with a message. *)
Definition initializeSDK (initialize : completion unit) (m : Module_state)
  : Module_state * completion Vultisig :=
  match sdkInstance m with
  | Some sdk => (m, Return sdk)
  | None =>
      let sdk := constructed m in
      let m1 := {| sdkInstance := Some sdk;
                   constructed := S (constructed m);
                   initialized := initialized m |} in
      match initialize with
      | Return _ =>
          ({| sdkInstance := sdkInstance m1;
              constructed := constructed m1;
              initialized := sdk :: initialized m1 |}, Return sdk)
      | Throw message => (m1, Throw message)
      end
  end.

(** [getSDK()]. *)
Definition getSDK (m : Module_state) : completion Vultisig :=
  match sdkInstance m with
  | None => Throw "SDK not initialized. Call initializeSDK() first."
  | Some sdk => Return sdk
  end.

(** The user at the keyboard: the answers [window.prompt] will get, in order
    ([None] is a cancelled dialog). *)
Definition User : Type := list (option string).

(** [window.prompt(message)]: shows one dialog and takes the next answer. *)
Definition window_prompt (message : string) (u : User) : User * list string * option string :=
  match u with
  | answer :: rest => (rest, [message], answer)
  | [] => ([], [message], None)
  end.

(** The [onPasswordRequired] callback given to [new Vultisig].  It returns
    what is left of the user's answers, the dialogs it showed, and its
    completion. *)
Definition onPasswordRequired (vaultId : string) (vaultName : option string) (u : User)
  : User * list string * completion string :=
  let displayName := or_else vaultName (slice_to 8 vaultId) in
  let '(u', shown, password) := window_prompt ("Enter password for vault: " ++ displayName) u in
  if negb (truthy_opt password)
  then (u', shown, Throw "Password required")
  else match password with
       | Some p => (u', shown, Return p)
       | None => (u', shown, Throw "Password required")
       end.

End Sdk.

(** ** [src/secure-wallet.ts]: the two-tab simulation *)

Module SecureWallet.

Inductive DeviceId : Type := device_a | device_b.

Definition DeviceId_eqb (x y : DeviceId) : bool :=
  match x, y with
  | device_a, device_a | device_b, device_b => true
  | _, _ => false
  end.

(** [n.toString()] and [`${n}`] for an integer. *)
Definition toString (n : Z) : string :=
  DecimalString.NilZero.string_of_int (Z.to_int n).

(** SDK objects: a vault is known by its id, a keysign payload by its
    encoding. *)
Record SecureVault : Type := { vault_id : string }.
Record KeysignPayload : Type := { encoded : string }.
Definition Vultisig : Type := Sdk.Vultisig.

(** The text handed from one tab to the other.  The keygen text comes from
    the SDK; the signing text is
    [JSON.stringify({chain, messageHashes, toAddress, amount, timestamp})]
    and is kept as the object it serialises. *)
Inductive Payload : Type :=
| FromSDK (text : string)
| SigningRequestJSON (chain : string) (messageHashes : list string)
    (toAddress amount : string) (timestamp : Z).

Inductive PayloadType : Type := keygen | signing.

Module PendingTxRequest.
Record t : Type := {
  fromDevice : DeviceId;
  toAddress : string;
  amount : string;
  chain : string;
  signingPayload : Payload
}.
End PendingTxRequest.

Module DeviceState.
Record t : Type := {
  id : DeviceId;
  name : string;
  sdk : option Vultisig;
  initialized : bool;
  vault : option SecureVault;
  vaultId : option string;
  solanaAddress : option string;
  balance : option number;
  status : string;
  error : option string;
  loading : bool;
  qrPayload : option string;
  devicesJoined : Z;
  devicesRequired : Z;
  signingPayload : option Payload;
  pendingTxRequest : option PendingTxRequest.t
}.
End DeviceState.

Module AppState.
Record t : Type := {
  activeDevice : DeviceId;
  deviceA : DeviceState.t;
  deviceB : DeviceState.t;
  sharedPayload : option Payload;
  sharedPayloadType : option PayloadType;
  pendingTransaction : option PendingTxRequest.t
}.
End AppState.

Definition createInitialDeviceState (id : DeviceId) (name : string) : DeviceState.t :=
  {| DeviceState.id := id;
     DeviceState.name := name;
     DeviceState.sdk := None;
     DeviceState.initialized := false;
     DeviceState.vault := None;
     DeviceState.vaultId := None;
     DeviceState.solanaAddress := None;
     DeviceState.balance := None;
     DeviceState.status := "Not initialized";
     DeviceState.error := None;
     DeviceState.loading := false;
     DeviceState.qrPayload := None;
     DeviceState.devicesJoined := 0;
     DeviceState.devicesRequired := 2;
     DeviceState.signingPayload := None;
     DeviceState.pendingTxRequest := None |}.

(** The module constant [state]. *)
Definition state : AppState.t :=
  {| AppState.activeDevice := device_a;
     AppState.deviceA := createInitialDeviceState device_a "Device A (Initiator)";
     AppState.deviceB := createInitialDeviceState device_b "Device B (Joiner)";
     AppState.sharedPayload := None;
     AppState.sharedPayloadType := None;
     AppState.pendingTransaction := None |}.

(** One key of a [Partial<DeviceState>] object literal, with its value. *)
Inductive Update : Type :=
| Sdk_ (v : option Vultisig)
| Initialized (v : bool)
| Vault (v : option SecureVault)
| VaultId (v : option string)
| SolanaAddress (v : option string)
| Balance (v : option number)
| Status (v : string)
| Error (v : option string)
| Loading (v : bool)
| QrPayload (v : option string)
| DevicesJoined (v : Z)
| DevicesRequired (v : Z)
| SigningPayload (v : option Payload).

(** The value a literal gives to one field: the one of the key when the key
    is there, the old one otherwise. *)
Definition pick {A : Type} (sel : Update -> option A) (updates : list Update) (old : A) : A :=
  fold_left (fun acc u => match sel u with Some v => v | None => acc end) updates old.

(** The object spread [{ ...d, ...updates }]. *)
Definition spread (d : DeviceState.t) (updates : list Update) : DeviceState.t :=
  {| DeviceState.id := DeviceState.id d;
     DeviceState.name := DeviceState.name d;
     DeviceState.sdk :=
       pick (fun u => match u with Sdk_ v => Some v | _ => None end) updates (DeviceState.sdk d);
     DeviceState.initialized :=
       pick (fun u => match u with Initialized v => Some v | _ => None end) updates (DeviceState.initialized d);
     DeviceState.vault :=
       pick (fun u => match u with Vault v => Some v | _ => None end) updates (DeviceState.vault d);
     DeviceState.vaultId :=
       pick (fun u => match u with VaultId v => Some v | _ => None end) updates (DeviceState.vaultId d);
     DeviceState.solanaAddress :=
       pick (fun u => match u with SolanaAddress v => Some v | _ => None end) updates (DeviceState.solanaAddress d);
     DeviceState.balance :=
       pick (fun u => match u with Balance v => Some v | _ => None end) updates (DeviceState.balance d);
     DeviceState.status :=
       pick (fun u => match u with Status v => Some v | _ => None end) updates (DeviceState.status d);
     DeviceState.error :=
       pick (fun u => match u with Error v => Some v | _ => None end) updates (DeviceState.error d);
     DeviceState.loading :=
       pick (fun u => match u with Loading v => Some v | _ => None end) updates (DeviceState.loading d);
     DeviceState.qrPayload :=
       pick (fun u => match u with QrPayload v => Some v | _ => None end) updates (DeviceState.qrPayload d);
     DeviceState.devicesJoined :=
       pick (fun u => match u with DevicesJoined v => Some v | _ => None end) updates (DeviceState.devicesJoined d);
     DeviceState.devicesRequired :=
       pick (fun u => match u with DevicesRequired v => Some v | _ => None end) updates (DeviceState.devicesRequired d);
     DeviceState.signingPayload :=
       pick (fun u => match u with SigningPayload v => Some v | _ => None end) updates (DeviceState.signingPayload d);
     DeviceState.pendingTxRequest := DeviceState.pendingTxRequest d |}.

Definition setDeviceState (id : DeviceId) (updates : list Update) (st : AppState.t) : AppState.t :=
  match id with
  | device_a =>
      {| AppState.activeDevice := AppState.activeDevice st;
         AppState.deviceA := spread (AppState.deviceA st) updates;
         AppState.deviceB := AppState.deviceB st;
         AppState.sharedPayload := AppState.sharedPayload st;
         AppState.sharedPayloadType := AppState.sharedPayloadType st;
         AppState.pendingTransaction := AppState.pendingTransaction st |}
  | device_b =>
      {| AppState.activeDevice := AppState.activeDevice st;
         AppState.deviceA := AppState.deviceA st;
         AppState.deviceB := spread (AppState.deviceB st) updates;
         AppState.sharedPayload := AppState.sharedPayload st;
         AppState.sharedPayloadType := AppState.sharedPayloadType st;
         AppState.pendingTransaction := AppState.pendingTransaction st |}
  end.

(** The three assignments [state.pendingTransaction = ...],
    [state.sharedPayload = ...], [state.sharedPayloadType = ...]. *)
Definition setSession (pending : option PendingTxRequest.t) (shared : option Payload)
    (kind : option PayloadType) (st : AppState.t) : AppState.t :=
  {| AppState.activeDevice := AppState.activeDevice st;
     AppState.deviceA := AppState.deviceA st;
     AppState.deviceB := AppState.deviceB st;
     AppState.sharedPayload := shared;
     AppState.sharedPayloadType := kind;
     AppState.pendingTransaction := pending |}.

(** The two assignments [state.sharedPayload = ...],
    [state.sharedPayloadType = ...]. *)
Definition setShared (shared : option Payload) (kind : option PayloadType)
    (st : AppState.t) : AppState.t :=
  setSession (AppState.pendingTransaction st) shared kind st.

(** [id === 'device-a' ? state.deviceA : state.deviceB]. *)
Definition deviceOf (id : DeviceId) (st : AppState.t) : DeviceState.t :=
  match id with
  | device_a => AppState.deviceA st
  | device_b => AppState.deviceB st
  end.

(** [approverDeviceId === 'device-a' ? 'device-b' : 'device-a']. *)
Definition otherId (id : DeviceId) : DeviceId :=
  match id with
  | device_a => device_b
  | device_b => device_a
  end.

(** The calls a function makes to the SDK, in order, with their arguments. *)
Record Coin : Type := {
  coin_chain : string;
  coin_address : string;
  coin_decimals : Z;
  coin_ticker : string
}.

Inductive SdkCall : Type :=
| CreateSecureVault (name password : string) (devices : Z)
| Address (chain : string)
| PrepareSendTx (coin : Coin) (receiver : string) (amount : Z)
| ExtractMessageHashes (keysignPayload : KeysignPayload)
| DeleteVault (vault : SecureVault).

(** The callback [onPasswordRequired] of [initializeDevice]; [device] is the
    device object the function captured. *)
Definition onPasswordRequired (device : DeviceState.t) (vaultId : string)
    (vaultName : option string) (u : Sdk.User)
  : Sdk.User * list string * completion string :=
  let displayName := or_else vaultName (slice_to 8 vaultId) in
  let '(u', shown, password) :=
    Sdk.window_prompt ("[" ++ DeviceState.name device ++ "] Enter password for vault: " ++ displayName) u in
  if negb (truthy_opt password)
  then (u', shown, Throw "Password required")
  else match password with
       | Some p => (u', shown, Return p)
       | None => (u', shown, Throw "Password required")
       end.

(** *** Key generation *)

(** What [sdk.createSecureVault] does while it is awaited: the callbacks it
    invokes, in order, and how its promise settles. *)
Inductive KeygenEvent : Type :=
| onProgress (message : string)
| onQRCodeReady (qrPayload : string)
| onDeviceJoined (deviceId : string) (totalJoined required : Z).

Record CreateVaultEnv : Type := {
  vault_name_input : option string;
  vault_password_input : option string;
  keygen_events : list KeygenEvent;
  keygen_result : completion (SecureVault * string);
  created_address : completion string;
  created_balance : option number
}.

(** The three callbacks passed by [createSecureVault]. *)
Definition keygenCallback (st : AppState.t) (e : KeygenEvent) : AppState.t :=
  match e with
  | onProgress message => setDeviceState device_a [Status message] st
  | onQRCodeReady qrPayload =>
      setShared (Some (FromSDK qrPayload)) (Some keygen)
        (setDeviceState device_a [QrPayload (Some qrPayload)] st)
  | onDeviceJoined _ totalJoined required =>
      setDeviceState device_a
        [DevicesJoined totalJoined;
         DevicesRequired required;
         Status (toString totalJoined ++ "/" ++ toString required ++ " devices joined")] st
  end.

(** The state while [createSecureVault] awaits the SDK, after the callbacks
    of [events]. *)
Definition createSecureVault_awaiting (events : list KeygenEvent) (st : AppState.t) : AppState.t :=
  fold_left keygenCallback events
    (setDeviceState device_a
       [Loading true; Status "Creating vault..."; Error None; QrPayload None; DevicesJoined 0] st).

Definition createSecureVault_failed (message : string) (st : AppState.t) : AppState.t :=
  setDeviceState device_a
    [Loading false; Error (Some message); Status "Vault creation failed"] st.

Definition createSecureVault (env : CreateVaultEnv) (st : AppState.t)
  : AppState.t * list SdkCall :=
  match DeviceState.sdk (AppState.deviceA st) with
  | None => (st, [])
  | Some _ =>
      let name := or_else (vault_name_input env) "Shared Secure Vault" in
      let password := or_else (vault_password_input env) "" in
      let st1 := createSecureVault_awaiting (keygen_events env) st in
      let call := CreateSecureVault name password 2 in
      match keygen_result env with
      | Throw message => (createSecureVault_failed message st1, [call])
      | Return (vault, vaultId) =>
          match created_address env with
          | Throw message => (createSecureVault_failed message st1, [call; Address "Solana"])
          | Return solanaAddress =>
              (setShared None None
                 (setDeviceState device_a
                    [Vault (Some vault); VaultId (Some vaultId);
                     SolanaAddress (Some solanaAddress);
                     Balance (created_balance env);
                     Loading false; Status "Vault created!"; QrPayload None] st1),
               [call; Address "Solana"])
          end
      end
  end.

(** *** Signing: the approval request *)

Record InitiateEnv : Type := {
  tx_destination : option string;
  tx_amount : option string;
  sender_address : completion string;
  parseFloat : string -> number;
  prepareSendTx : completion KeysignPayload;
  extractMessageHashes : completion (list string);
  Date_now : Z
}.

Definition initiateTransaction_failed (fromDeviceId : DeviceId) (message : string)
    (st : AppState.t) : AppState.t :=
  setSession None None None
    (setDeviceState fromDeviceId
       [Loading false; Error (Some message); Status "Transaction failed"; SigningPayload None] st).

Definition initiateTransaction (env : InitiateEnv) (fromDeviceId : DeviceId) (st : AppState.t)
  : AppState.t * list SdkCall :=
  match DeviceState.vault (deviceOf fromDeviceId st) with
  | None => (st, [])
  | Some _ =>
      let amount := or_else (tx_amount env) "0.001" in
      if negb (truthy_opt (tx_destination env))
      then (setDeviceState fromDeviceId [Error (Some "Please enter destination address")] st, [])
      else
        let toAddress := or_else (tx_destination env) "" in
        let st1 := setDeviceState fromDeviceId
                     [Loading true; Status "Preparing transaction..."; Error None] st in
        match sender_address env with
        | Throw message => (initiateTransaction_failed fromDeviceId message st1, [Address "Solana"])
        | Return senderAddress =>
            let amountFloat := parseFloat env amount in
            match BigInt_floor (PrimFloat.mul amountFloat 1e9%float) with
            | Throw message => (initiateTransaction_failed fromDeviceId message st1, [Address "Solana"])
            | Return amountBaseUnits =>
                let coin := {| coin_chain := "Solana"; coin_address := senderAddress;
                               coin_decimals := 9; coin_ticker := "SOL" |} in
                let prepare := PrepareSendTx coin toAddress amountBaseUnits in
                match prepareSendTx env with
                | Throw message =>
                    (initiateTransaction_failed fromDeviceId message st1, [Address "Solana"; prepare])
                | Return keysignPayload =>
                    let extract := ExtractMessageHashes keysignPayload in
                    match extractMessageHashes env with
                    | Throw message =>
                        (initiateTransaction_failed fromDeviceId message st1,
                         [Address "Solana"; prepare; extract])
                    | Return messageHashes =>
                        let signingPayload :=
                          SigningRequestJSON "Solana" messageHashes toAddress amount (Date_now env) in
                        let pending :=
                          {| PendingTxRequest.fromDevice := fromDeviceId;
                             PendingTxRequest.toAddress := toAddress;
                             PendingTxRequest.amount := amount;
                             PendingTxRequest.chain := "Solana";
                             PendingTxRequest.signingPayload := signingPayload |} in
                        (setDeviceState fromDeviceId
                           [Loading false; Status "Waiting for approval...";
                            SigningPayload (Some signingPayload)]
                           (setSession (Some pending) (Some signingPayload) (Some signing) st1),
                         [Address "Solana"; prepare; extract])
                    end
                end
            end
        end
  end.

Definition rejectTransaction (st : AppState.t) : AppState.t :=
  setDeviceState device_b [Loading false; Status "Transaction rejected"]
    (setDeviceState device_a
       [Loading false; Status "Transaction rejected"; SigningPayload None]
       (setSession None None None st)).

(** [render]: which device is offered the approval banner, and which the
    "Send SOL" form. *)
Definition canApprove (st : AppState.t) (device : DeviceState.t) : bool :=
  match AppState.pendingTransaction st with
  | Some p => negb (DeviceId_eqb (PendingTxRequest.fromDevice p) (DeviceState.id device))
  | None => false
  end.

Definition sendFormShown (st : AppState.t) (device : DeviceState.t) : bool :=
  DeviceState.initialized device
  && match DeviceState.vault device with Some _ => true | None => false end
  && negb (canApprove st device).

(** *** Signing: the simulated ceremony *)

(** The [try] block of [approveTransaction] has three waits; an exception
    inside it is raised during one of them (or in the [render] that follows
    it). *)
Inductive SigningStage : Type := Joining | Computing | Combining.

Definition SigningStage_eqb (x y : SigningStage) : bool :=
  match x, y with
  | Joining, Joining | Computing, Computing | Combining, Combining => true
  | _, _ => false
  end.

Record ApproveEnv : Type := {
  thrown : option (SigningStage * string);
  random1 : string;
  random2 : string;
  approve_parseFloat : string -> number
}.

Definition thrownAt (env : ApproveEnv) (stage : SigningStage) : option string :=
  match thrown env with
  | Some (s, message) => if SigningStage_eqb s stage then Some message else None
  | None => None
  end.

Definition approveTransaction_failed (approverDeviceId : DeviceId) (message : string)
    (st : AppState.t) : AppState.t :=
  setDeviceState (otherId approverDeviceId)
    [Loading false; Error (Some "Other device failed to sign"); Status "Signing failed"]
    (setDeviceState approverDeviceId
       [Loading false; Error (Some message); Status "Signing failed"] st).

Definition bothStatus (approverDeviceId : DeviceId) (s : string) (st : AppState.t) : AppState.t :=
  setDeviceState (otherId approverDeviceId) [Status s]
    (setDeviceState approverDeviceId [Status s] st).

Definition approveTransaction (env : ApproveEnv) (approverDeviceId : DeviceId) (st : AppState.t)
  : AppState.t :=
  let device := deviceOf approverDeviceId st in
  let initiatorId := otherId approverDeviceId in
  match DeviceState.vault device, AppState.pendingTransaction st with
  | Some _, Some pendingTx =>
      let st1 :=
        setDeviceState initiatorId [Status "Other device joined! MPC signing in progress..."]
          (setDeviceState approverDeviceId
             [Loading true; Status "Joining MPC signing session..."; Error None] st) in
      match thrownAt env Joining with
      | Some message => approveTransaction_failed approverDeviceId message st1
      | None =>
          let st2 := bothStatus approverDeviceId "Computing partial signature..." st1 in
          match thrownAt env Computing with
          | Some message => approveTransaction_failed approverDeviceId message st2
          | None =>
              let st3 := bothStatus approverDeviceId "Combining signatures..." st2 in
              match thrownAt env Combining with
              | Some message => approveTransaction_failed approverDeviceId message st3
              | None =>
                  let mockTxHash := random1 env ++ "..." ++ random2 env in
                  let st4 :=
                    setDeviceState initiatorId
                      [Loading false; Status ("✓ Tx: " ++ mockTxHash); SigningPayload None]
                      (setDeviceState approverDeviceId
                         [Loading false; Status "✓ Transaction signed & sent!"] st3) in
                  let newBalance :=
                    PrimFloat.sub
                      (PrimFloat.sub (number_or_zero (DeviceState.balance device))
                         (approve_parseFloat env (PendingTxRequest.amount pendingTx)))
                      0.000005%float in
                  setSession None None None
                    (setDeviceState device_b [Balance (Some (max_zero newBalance))]
                       (setDeviceState device_a [Balance (Some (max_zero newBalance))] st4))
              end
          end
      end
  | _, _ => st
  end.

(** The timer set on success: five seconds later both tabs show
    'Vault ready'. *)
Definition approveTransaction_timer (st : AppState.t) : AppState.t :=
  setDeviceState device_b [Status "Vault ready"]
    (setDeviceState device_a [Status "Vault ready"] st).

(** *** Deleting the vault *)

Record DeleteEnv : Type := {
  confirm : bool;
  sdk_deleteVault : completion unit
}.

Definition deleteVault (env : DeleteEnv) (deviceId : DeviceId) (st : AppState.t)
  : AppState.t * list SdkCall :=
  let device := deviceOf deviceId st in
  match DeviceState.sdk device, DeviceState.vault device with
  | Some _, Some vault =>
      if negb (confirm env) then (st, [])
      else
        match sdk_deleteVault env with
        | Return _ =>
            (setDeviceState deviceId
               [Vault None; VaultId None; SolanaAddress None; Balance None;
                Status "Vault deleted"] st,
             [DeleteVault vault])
        | Throw message =>
            (setDeviceState deviceId [Error (Some message)] st, [DeleteVault vault])
        end
  | _, _ => (st, [])
  end.

(** *** Initialisation, joining, tabs *)

(** ['device-a'] and ['device-b'] as the strings they are. *)
Definition deviceIdText (id : DeviceId) : string :=
  match id with
  | device_a => "device-a"
  | device_b => "device-b"
  end.

(** [new PrefixedStorage(deviceId)]. *)
Definition storageOf (id : DeviceId) : PrefixedStorage.t :=
  {| PrefixedStorage.prefix := deviceIdText id |}.

(** An entry of [sdk.listVaults()]: the vault and its [type]. *)
Record StoredVault : Type := { stored_vault : SecureVault; stored_type : string }.

(** The calls of the functions below to the SDK. *)
Inductive SetupCall : Type :=
| NewVultisig (storage : PrefixedStorage.t)
| Initialize
| ListVaults
| VaultAddress (vault : SecureVault) (chain : string)
| JoinSecureVault (qrPayload : Payload) (devices : Z) (password : string).

Record InitEnv : Type := {
  new_sdk : Vultisig;
  sdk_initialize : completion unit;
  sdk_listVaults : completion (list StoredVault);
  first_address : completion string;
  first_balance : option number
}.

Definition initializeDevice_failed (deviceId : DeviceId) (message : string)
    (st : AppState.t) : AppState.t :=
  setDeviceState deviceId
    [Loading false; Error (Some message); Status "Initialization failed"] st.

(** The last [setDeviceState] of the [try] block of [initializeDevice]. *)
Definition initializeDevice_done (deviceId : DeviceId) (sdk : Vultisig)
    (vault : option SecureVault) (solanaAddress : option string) (balance : option number)
    (st : AppState.t) : AppState.t :=
  setDeviceState deviceId
    [Sdk_ (Some sdk); Initialized true; Vault vault;
     VaultId (match vault with
              | Some v => if truthy (vault_id v) then Some (vault_id v) else None
              | None => None
              end);
     SolanaAddress solanaAddress; Balance balance; Loading false;
     Status (match vault with Some _ => "Vault ready" | None => "Ready - No vault" end)] st.

Definition initializeDevice (env : InitEnv) (deviceId : DeviceId) (st : AppState.t)
  : AppState.t * list SetupCall :=
  if DeviceState.initialized (deviceOf deviceId st) then (st, [])
  else
    let st1 := setDeviceState deviceId [Loading true; Status "Initializing SDK..."] st in
    let construct := NewVultisig (storageOf deviceId) in
    match sdk_initialize env with
    | Throw message => (initializeDevice_failed deviceId message st1, [construct; Initialize])
    | Return _ =>
        match sdk_listVaults env with
        | Throw message =>
            (initializeDevice_failed deviceId message st1, [construct; Initialize; ListVaults])
        | Return vaults =>
            match vaults with
            | first :: _ =>
                if stored_type first =? "secure"
                then
                  match first_address env with
                  | Throw message =>
                      (initializeDevice_failed deviceId message st1,
                       [construct; Initialize; ListVaults;
                        VaultAddress (stored_vault first) "Solana"])
                  | Return solanaAddress =>
                      (initializeDevice_done deviceId (new_sdk env) (Some (stored_vault first))
                         (Some solanaAddress) (first_balance env) st1,
                       [construct; Initialize; ListVaults;
                        VaultAddress (stored_vault first) "Solana"])
                  end
                else
                  (initializeDevice_done deviceId (new_sdk env) None None None st1,
                   [construct; Initialize; ListVaults])
            | [] =>
                (initializeDevice_done deviceId (new_sdk env) None None None st1,
                 [construct; Initialize; ListVaults])
            end
        end
    end.








(** The click handlers of the two tabs. *)
Definition switchTab (id : DeviceId) (st : AppState.t) : AppState.t :=
  {| AppState.activeDevice := id;
     AppState.deviceA := AppState.deviceA st;
     AppState.deviceB := AppState.deviceB st;
     AppState.sharedPayload := AppState.sharedPayload st;
     AppState.sharedPayloadType := AppState.sharedPayloadType st;
     AppState.pendingTransaction := AppState.pendingTransaction st |}.

Definition getActiveDevice (st : AppState.t) : DeviceState.t :=
  match AppState.activeDevice st with
  | device_a => AppState.deviceA st
  | device_b => AppState.deviceB st
  end.

Definition getOtherDevice (st : AppState.t) : DeviceState.t :=
  match AppState.activeDevice st with
  | device_a => AppState.deviceB st
  | device_b => AppState.deviceA st
  end.

(** The click handler of a device's 'Refresh' button; [fetched] is what
    [fetchBalance] resolves to. *)
Definition refreshBalance (fetched : option number) (id : DeviceId) (st : AppState.t)
  : AppState.t :=
  if truthy_opt (DeviceState.solanaAddress (deviceOf id st))
  then setDeviceState id [Balance fetched] st
  else st.

End SecureWallet.

(** ** The real-device page (unnamed source file, [multi-device]) *)

Module MultiDevice.

Definition SecureVault : Type := SecureWallet.SecureVault.
Definition KeysignPayload : Type := SecureWallet.KeysignPayload.
Definition Coin : Type := SecureWallet.Coin.
Definition Vultisig : Type := Sdk.Vultisig.

(** What [vault.sign] resolves to. *)
Definition Signature : Type := string.

Inductive Step : Type :=
| step_loading | step_home | step_create_vault | step_wallet | step_signing.

Record DebugInfo : Type := {
  sessionId : string;
  localPartyId : string;
  vaultPublicKey : string;
  toAddress : string;
  toAmount : string;
  senderAddress : string;
  compressedDataLength : nat;
  qrUrlLength : nat
}.

Module AppState.
Record t : Type := {
  step : Step;
  sdk : option Vultisig;
  initialized : bool;
  vault : option SecureVault;
  vaultId : option string;
  solanaAddress : option string;
  balance : option number;
  loading : bool;
  error : option string;
  status : string;
  qrCodeDataUrl : option string;
  qrPayload : option string;
  devicesJoined : Z;
  devicesRequired : Z;
  signingInProgress : bool;
  txHash : option string;
  debugInfo : option DebugInfo
}.
End AppState.

(** The module constant [state]. *)
Definition state : AppState.t :=
  {| AppState.step := step_loading;
     AppState.sdk := None;
     AppState.initialized := false;
     AppState.vault := None;
     AppState.vaultId := None;
     AppState.solanaAddress := None;
     AppState.balance := None;
     AppState.loading := false;
     AppState.error := None;
     AppState.status := "Initializing...";
     AppState.qrCodeDataUrl := None;
     AppState.qrPayload := None;
     AppState.devicesJoined := 0;
     AppState.devicesRequired := 2;
     AppState.signingInProgress := false;
     AppState.txHash := None;
     AppState.debugInfo := None |}.

(** One assignment [state.field = v]. *)
Inductive Assignment : Type :=
| Step_ (v : Step)
| Vault (v : option SecureVault)
| VaultId (v : option string)
| SolanaAddress (v : option string)
| Balance (v : option number)
| Loading (v : bool)
| Error (v : option string)
| Status (v : string)
| QrCodeDataUrl (v : option string)
| QrPayload (v : option string)
| DevicesJoined (v : Z)
| DevicesRequired (v : Z)
| SigningInProgress (v : bool)
| TxHash (v : option string)
| DebugInfo_ (v : option DebugInfo).

Definition last_of {A : Type} (sel : Assignment -> option A) (l : list Assignment) (old : A) : A :=
  fold_left (fun acc u => match sel u with Some v => v | None => acc end) l old.

(** A run of assignments to [state], in order. *)
Definition assign (l : list Assignment) (st : AppState.t) : AppState.t :=
  {| AppState.step :=
       last_of (fun u => match u with Step_ v => Some v | _ => None end) l (AppState.step st);
     AppState.sdk := AppState.sdk st;
     AppState.initialized := AppState.initialized st;
     AppState.vault :=
       last_of (fun u => match u with Vault v => Some v | _ => None end) l (AppState.vault st);
     AppState.vaultId :=
       last_of (fun u => match u with VaultId v => Some v | _ => None end) l (AppState.vaultId st);
     AppState.solanaAddress :=
       last_of (fun u => match u with SolanaAddress v => Some v | _ => None end) l (AppState.solanaAddress st);
     AppState.balance :=
       last_of (fun u => match u with Balance v => Some v | _ => None end) l (AppState.balance st);
     AppState.loading :=
       last_of (fun u => match u with Loading v => Some v | _ => None end) l (AppState.loading st);
     AppState.error :=
       last_of (fun u => match u with Error v => Some v | _ => None end) l (AppState.error st);
     AppState.status :=
       last_of (fun u => match u with Status v => Some v | _ => None end) l (AppState.status st);
     AppState.qrCodeDataUrl :=
       last_of (fun u => match u with QrCodeDataUrl v => Some v | _ => None end) l (AppState.qrCodeDataUrl st);
     AppState.qrPayload :=
       last_of (fun u => match u with QrPayload v => Some v | _ => None end) l (AppState.qrPayload st);
     AppState.devicesJoined :=
       last_of (fun u => match u with DevicesJoined v => Some v | _ => None end) l (AppState.devicesJoined st);
     AppState.devicesRequired :=
       last_of (fun u => match u with DevicesRequired v => Some v | _ => None end) l (AppState.devicesRequired st);
     AppState.signingInProgress :=
       last_of (fun u => match u with SigningInProgress v => Some v | _ => None end) l (AppState.signingInProgress st);
     AppState.txHash :=
       last_of (fun u => match u with TxHash v => Some v | _ => None end) l (AppState.txHash st);
     AppState.debugInfo :=
       last_of (fun u => match u with DebugInfo_ v => Some v | _ => None end) l (AppState.debugInfo st) |}.

Inductive SdkCall : Type :=
| CreateSecureVault (name password : string) (devices : Z)
| Address (chain : string)
| PrepareSendTx (coin : Coin) (receiver : string) (amount : Z)
| ExtractMessageHashes (keysignPayload : KeysignPayload)
| Sign (chain : string) (transaction : KeysignPayload) (messageHashes : list string)
| BroadcastTx (chain : string) (keysignPayload : KeysignPayload) (signature : Signature)
| DeleteVault (vault : SecureVault).

(** The callback [onPasswordRequired] of [initializeSDK]. *)
Definition onPasswordRequired (vaultId : string) (vaultName : option string) (u : Sdk.User)
  : Sdk.User * list string * completion string :=
  let displayName := or_else vaultName (slice_to 8 vaultId) in
  let '(u', shown, password) :=
    Sdk.window_prompt ("Enter password for vault: " ++ displayName) u in
  if negb (truthy_opt password)
  then (u', shown, Throw "Password required")
  else match password with
       | Some p => (u', shown, Return p)
       | None => (u', shown, Throw "Password required")
       end.

(** *** Key generation *)

(** The callbacks the SDK invokes while [createSecureVault] is awaited;
    [qrCode] is how [generateQRCode] settles inside [onQRCodeReady]. *)
Inductive KeygenEvent : Type :=
| onProgress (message : string)
| onQRCodeReady (qrPayload : string) (qrCode : completion string)
| onDeviceJoined (deviceId : string) (totalJoined required : Z).

Record CreateVaultEnv : Type := {
  vault_name_input : option string;
  vault_password_input : option string;
  device_count_input : option string;
  parseInt : string -> Z;
  keygen_events : list KeygenEvent;
  keygen_result : completion (SecureVault * string);
  created_address : completion string;
  created_balance : option number
}.

Definition keygenCallback (st : AppState.t) (e : KeygenEvent) : AppState.t :=
  match e with
  | onProgress message => assign [Status message] st
  | onQRCodeReady qrPayload qrCode =>
      match qrCode with
      | Return url =>
          assign [QrPayload (Some qrPayload); QrCodeDataUrl (Some url);
                  Status "Scan QR code with Vultisig mobile app"] st
      | Throw _ => assign [QrPayload (Some qrPayload)] st
      end
  | onDeviceJoined _ totalJoined required =>
      assign [DevicesJoined totalJoined; DevicesRequired required;
              Status (SecureWallet.toString totalJoined ++ "/"
                      ++ SecureWallet.toString required ++ " devices joined")] st
  end.

Definition createSecureVault_awaiting (deviceCount : Z) (events : list KeygenEvent)
    (st : AppState.t) : AppState.t :=
  fold_left keygenCallback events
    (assign [Loading true; Step_ step_create_vault; Status "Starting vault creation...";
             Error None; QrCodeDataUrl None; QrPayload None;
             DevicesJoined 0; DevicesRequired deviceCount] st).

Definition createSecureVault (env : CreateVaultEnv) (st : AppState.t)
  : AppState.t * list SdkCall :=
  match AppState.sdk st with
  | None => (st, [])
  | Some _ =>
      let name := or_else (vault_name_input env) "My Secure Vault" in
      let password := or_else (vault_password_input env) "" in
      let deviceCount := parseInt env (or_else (device_count_input env) "2") in
      let st1 := createSecureVault_awaiting deviceCount (keygen_events env) st in
      let call := CreateSecureVault name password deviceCount in
      match keygen_result env with
      | Throw message =>
          (assign [Error (Some message); Status "Vault creation failed"; Step_ step_home;
                   Loading false] st1, [call])
      | Return (vault, vaultId) =>
          let st2 := assign [Vault (Some vault); VaultId (Some vaultId)] st1 in
          match created_address env with
          | Throw message =>
              (assign [Error (Some message); Status "Vault creation failed"; Step_ step_home;
                       Loading false] st2, [call; Address "Solana"])
          | Return solanaAddress =>
              (assign [SolanaAddress (Some solanaAddress); Balance (created_balance env);
                       Step_ step_wallet; Status "Vault created successfully!";
                       QrCodeDataUrl None; QrPayload None; Loading false] st2,
               [call; Address "Solana"])
          end
      end
  end.

(** *** Sending a transaction *)

Inductive SignEvent : Type :=
| sign_onQRCodeReady (qrPayload : string) (qrCode : completion string)
| sign_onDeviceJoined (deviceId : string) (totalJoined required : Z).

Record SendEnv : Type := {
  tx_destination : option string;
  tx_amount : option string;
  sender_address : completion string;
  parseFloat : string -> number;
  prepareSendTx : completion KeysignPayload;
  extractMessageHashes : completion (list string);
  sign_events : list SignEvent;
  sign : completion Signature;
  broadcastTx : completion string;
  fetched_balance : option number
}.

(** The local constants of [sendTransaction] that its later part and the
    callbacks of [vault.sign] close over. *)
Record SendScope : Type := {
  scope_toAddress : string;
  scope_senderAddress : string;
  scope_amountBaseUnits : Z;
  scope_keysignPayload : KeysignPayload;
  scope_messageHashes : list string
}.

Definition signCallback (scope : SendScope) (st : AppState.t) (e : SignEvent) : AppState.t :=
  match e with
  | sign_onQRCodeReady qrPayload qrCode =>
      match qrCode with
      | Return url =>
          assign
            [QrPayload (Some qrPayload); QrCodeDataUrl (Some url);
             Status "Scan QR code with Vultisig app to approve";
             DebugInfo_ (Some
               {| sessionId := "SDK-managed";
                  localPartyId := "SDK-managed";
                  vaultPublicKey :=
                    match AppState.vault st with
                    | Some v => SecureWallet.vault_id v
                    | None => ""
                    end;
                  toAddress := scope_toAddress scope;
                  toAmount := SecureWallet.toString (scope_amountBaseUnits scope);
                  senderAddress := scope_senderAddress scope;
                  compressedDataLength := String.length qrPayload;
                  qrUrlLength := String.length qrPayload |})] st
      | Throw _ => assign [QrPayload (Some qrPayload)] st
      end
  | sign_onDeviceJoined _ totalJoined required =>
      assign [DevicesJoined totalJoined; DevicesRequired required;
              Status (SecureWallet.toString totalJoined ++ "/"
                      ++ SecureWallet.toString required
                      ++ " devices joined - signing in progress...")] st
  end.

(** The [finally] block of [sendTransaction]. *)
Definition sendTransaction_finally (st : AppState.t) : AppState.t :=
  assign [Loading false; SigningInProgress false; Step_ step_wallet;
          QrCodeDataUrl None; QrPayload None; DebugInfo_ None] st.

(** The [catch] block followed by the [finally] block. *)
Definition sendTransaction_failed (message : string) (st : AppState.t) : AppState.t :=
  sendTransaction_finally (assign [Error (Some message); Status "Transaction failed"] st).

(** [sendTransaction] up to the point where it awaits [vault.sign]: either it
    is over, or it is waiting, with its scope. *)
Inductive Prepared : Type :=
| Over (st : AppState.t) (calls : list SdkCall)
| AwaitingSign (st : AppState.t) (calls : list SdkCall) (scope : SendScope).

Definition sendTransaction_prepare (env : SendEnv) (st : AppState.t) : Prepared :=
  match AppState.vault st, AppState.sdk st with
  | Some _, Some _ =>
      let amount := or_else (tx_amount env) "0.001" in
      if negb (truthy_opt (tx_destination env))
      then Over (assign [Error (Some "Please enter a destination address")] st) []
      else
        let toAddress := or_else (tx_destination env) "" in
        let st1 := assign [Loading true; SigningInProgress true; Step_ step_signing;
                           Status "Preparing transaction..."; Error None;
                           QrCodeDataUrl None; QrPayload None; TxHash None;
                           DebugInfo_ None] st in
        match sender_address env with
        | Throw message => Over (sendTransaction_failed message st1) [Address "Solana"]
        | Return senderAddress =>
            match BigInt_floor (PrimFloat.mul (parseFloat env amount) 1e9%float) with
            | Throw message => Over (sendTransaction_failed message st1) [Address "Solana"]
            | Return amountBaseUnits =>
                let coin := {| SecureWallet.coin_chain := "Solana";
                               SecureWallet.coin_address := senderAddress;
                               SecureWallet.coin_decimals := 9;
                               SecureWallet.coin_ticker := "SOL" |} in
                let prepare := PrepareSendTx coin toAddress amountBaseUnits in
                let st2 := assign [Status "Preparing transaction payload..."] st1 in
                match prepareSendTx env with
                | Throw message =>
                    Over (sendTransaction_failed message st2) [Address "Solana"; prepare]
                | Return keysignPayload =>
                    let extract := ExtractMessageHashes keysignPayload in
                    match extractMessageHashes env with
                    | Throw message =>
                        Over (sendTransaction_failed message st2)
                          [Address "Solana"; prepare; extract]
                    | Return messageHashes =>
                        AwaitingSign
                          (assign [Status "Waiting for QR code from SDK..."] st2)
                          [Address "Solana"; prepare; extract;
                           Sign "Solana" keysignPayload messageHashes]
                          {| scope_toAddress := toAddress;
                             scope_senderAddress := senderAddress;
                             scope_amountBaseUnits := amountBaseUnits;
                             scope_keysignPayload := keysignPayload;
                             scope_messageHashes := messageHashes |}
                    end
                end
            end
        end
  | _, _ => Over st []
  end.

(** The rest of [sendTransaction], run on the state of the page at the time
    [vault.sign] settles. *)
Definition sendTransaction_settle (env : SendEnv) (scope : SendScope) (st : AppState.t)
  : AppState.t * list SdkCall :=
  match sign env with
  | Throw message => (sendTransaction_failed message st, [])
  | Return signature =>
      let st1 := assign [Status "Broadcasting transaction..."; QrCodeDataUrl None] st in
      let broadcast := BroadcastTx "Solana" (scope_keysignPayload scope) signature in
      match broadcastTx env with
      | Throw message => (sendTransaction_failed message st1, [broadcast])
      | Return txHash =>
          (sendTransaction_finally
             (assign [TxHash (Some txHash); Status "Transaction sent!";
                      Balance (fetched_balance env)] st1),
           [broadcast])
      end
  end.

Definition sendTransaction (env : SendEnv) (st : AppState.t) : AppState.t * list SdkCall :=
  match sendTransaction_prepare env st with
  | Over st' calls => (st', calls)
  | AwaitingSign st1 calls scope =>
      let st2 := fold_left (signCallback scope) (sign_events env) st1 in
      let '(st3, calls') := sendTransaction_settle env scope st2 in
      (st3, (calls ++ calls')%list)
  end.

Definition cancelSigning (st : AppState.t) : AppState.t :=
  assign [Step_ step_wallet; Status "Wallet ready"; Loading false; SigningInProgress false;
          QrCodeDataUrl None; QrPayload None; DebugInfo_ None] st.

(** *** Deleting the vault *)

Record DeleteEnv : Type := {
  confirm : bool;
  sdk_deleteVault : completion unit
}.

Definition deleteVault (env : DeleteEnv) (st : AppState.t) : AppState.t * list SdkCall :=
  match AppState.sdk st, AppState.vault st with
  | Some _, Some vault =>
      if negb (confirm env) then (st, [])
      else
        match sdk_deleteVault env with
        | Return _ =>
            (assign [Vault None; VaultId None; SolanaAddress None; Balance None;
                     Step_ step_home; Status "Vault deleted"] st,
             [DeleteVault vault])
        | Throw message => (assign [Error (Some message)] st, [DeleteVault vault])
        end
  | _, _ => (st, [])
  end.

(** *** Start-up, cancelling a creation, the test signing *)

(** The assignments [state.sdk = ...] and [state.initialized = ...]. *)
Definition setSdk (sdk : option Vultisig) (initialized : bool) (st : AppState.t) : AppState.t :=
  {| AppState.step := AppState.step st;
     AppState.sdk := sdk;
     AppState.initialized := initialized;
     AppState.vault := AppState.vault st;
     AppState.vaultId := AppState.vaultId st;
     AppState.solanaAddress := AppState.solanaAddress st;
     AppState.balance := AppState.balance st;
     AppState.loading := AppState.loading st;
     AppState.error := AppState.error st;
     AppState.status := AppState.status st;
     AppState.qrCodeDataUrl := AppState.qrCodeDataUrl st;
     AppState.qrPayload := AppState.qrPayload st;
     AppState.devicesJoined := AppState.devicesJoined st;
     AppState.devicesRequired := AppState.devicesRequired st;
     AppState.signingInProgress := AppState.signingInProgress st;
     AppState.txHash := AppState.txHash st;
     AppState.debugInfo := AppState.debugInfo st |}.

Inductive SetupCall : Type :=
| NewVultisig
| Initialize
| ListVaults
| VaultAddress (vault : SecureVault) (chain : string).

Record InitEnv : Type := {
  new_sdk : Vultisig;
  sdk_initialize : completion unit;
  sdk_listVaults : completion (list SecureWallet.StoredVault);
  first_address : completion string;
  first_balance : option number
}.

(** [vaults.filter(v => v.type === 'secure')]. *)
Definition secureVaults (vaults : list SecureWallet.StoredVault)
  : list SecureWallet.StoredVault :=
  filter (fun v => SecureWallet.stored_type v =? "secure") vaults.

Definition initializeSDK_failed (message : string) (st : AppState.t) : AppState.t :=
  assign [Error (Some message); Status "Initialization failed"] st.

Definition initializeSDK (env : InitEnv) (st : AppState.t) : AppState.t * list SetupCall :=
  let st1 := setSdk (Some (new_sdk env)) (AppState.initialized st)
               (assign [Status "Initializing SDK..."] st) in
  match sdk_initialize env with
  | Throw message => (initializeSDK_failed message st1, [NewVultisig; Initialize])
  | Return _ =>
      let st2 := setSdk (Some (new_sdk env)) true st1 in
      match sdk_listVaults env with
      | Throw message =>
          (initializeSDK_failed message st2, [NewVultisig; Initialize; ListVaults])
      | Return vaults =>
          match secureVaults vaults with
          | first :: _ =>
              let vault := SecureWallet.stored_vault first in
              let st3 := assign [Vault (Some vault);
                                 VaultId (Some (SecureWallet.vault_id vault))] st2 in
              match first_address env with
              | Throw message =>
                  (initializeSDK_failed message st3,
                   [NewVultisig; Initialize; ListVaults; VaultAddress vault "Solana"])
              | Return solanaAddress =>
                  (assign [SolanaAddress (Some solanaAddress); Balance (first_balance env);
                           Step_ step_wallet; Status "Wallet ready"] st3,
                   [NewVultisig; Initialize; ListVaults; VaultAddress vault "Solana"])
              end
          | [] =>
              (assign [Step_ step_home; Status "Ready"] st2,
               [NewVultisig; Initialize; ListVaults])
          end
      end
  end.

Definition cancelVaultCreation (st : AppState.t) : AppState.t :=
  assign [Step_ step_home; Status "Ready"; Loading false; QrCodeDataUrl None;
          QrPayload None; Error None] st.

(** [refreshBalance]; [fetched] is what [fetchBalance] resolves to. *)
Definition refreshBalance (fetched : option number) (st : AppState.t) : AppState.t :=
  if truthy_opt (AppState.solanaAddress st) then assign [Balance fetched] st else st.

(** The fixed destination and amount of [testSigningQR]. *)
Definition test_toAddress : string := "So11111111111111111111111111111111111111112".
Definition test_amountBaseUnits : Z := 1000000.

Record TestEnv : Type := {
  test_sender_address : completion string;
  test_prepareSendTx : completion KeysignPayload;
  test_extractMessageHashes : completion (list string);
  test_sign_events : list SignEvent;
  test_sign : completion Signature
}.

(** The callbacks [testSigningQR] passes to [vault.sign]. *)
Definition testCallback (senderAddress : string) (st : AppState.t) (e : SignEvent)
  : AppState.t :=
  match e with
  | sign_onQRCodeReady qrPayload qrCode =>
      match qrCode with
      | Return url =>
          assign
            [QrPayload (Some qrPayload); QrCodeDataUrl (Some url);
             Status "Scan QR with Vultisig app to approve";
             DebugInfo_ (Some
               {| sessionId := "SDK-managed";
                  localPartyId := "SDK-managed";
                  vaultPublicKey :=
                    match AppState.vault st with
                    | Some v => SecureWallet.vault_id v
                    | None => ""
                    end;
                  toAddress := test_toAddress;
                  toAmount := SecureWallet.toString test_amountBaseUnits;
                  senderAddress := senderAddress;
                  compressedDataLength := String.length qrPayload;
                  qrUrlLength := String.length qrPayload |})] st
      | Throw _ => assign [QrPayload (Some qrPayload)] st
      end
  | sign_onDeviceJoined _ totalJoined required =>
      assign [DevicesJoined totalJoined; DevicesRequired required;
              Status ("Test: " ++ SecureWallet.toString totalJoined ++ "/"
                      ++ SecureWallet.toString required
                      ++ " devices joined - computing signatures...")] st
  end.

(** The [catch] block of [testSigningQR]. *)
Definition testSigningQR_failed (message : string) (st : AppState.t) : AppState.t :=
  assign [Error (Some message); Status "Test signing failed"; Loading false;
          SigningInProgress false; Step_ step_wallet] st.

Definition testSigningQR (env : TestEnv) (st : AppState.t) : AppState.t * list SdkCall :=
  match AppState.vault st, AppState.sdk st with
  | Some _, Some _ =>
      let st1 := assign [Loading true; SigningInProgress true; Step_ step_signing;
                         Status "Preparing test signing session..."; Error None;
                         QrCodeDataUrl None; QrPayload None; TxHash None;
                         DebugInfo_ None] st in
      match test_sender_address env with
      | Throw message => (testSigningQR_failed message st1, [Address "Solana"])
      | Return senderAddress =>
          let coin := {| SecureWallet.coin_chain := "Solana";
                         SecureWallet.coin_address := senderAddress;
                         SecureWallet.coin_decimals := 9;
                         SecureWallet.coin_ticker := "SOL" |} in
          let prepare := PrepareSendTx coin test_toAddress test_amountBaseUnits in
          let st2 := assign [Status "Preparing test transaction payload..."] st1 in
          match test_prepareSendTx env with
          | Throw message => (testSigningQR_failed message st2, [Address "Solana"; prepare])
          | Return keysignPayload =>
              let extract := ExtractMessageHashes keysignPayload in
              match test_extractMessageHashes env with
              | Throw message =>
                  (testSigningQR_failed message st2, [Address "Solana"; prepare; extract])
              | Return messageHashes =>
                  let st3 :=
                    fold_left (testCallback senderAddress) (test_sign_events env)
                      (assign [Status "Starting SDK signing flow - waiting for QR..."] st2) in
                  let calls := [Address "Solana"; prepare; extract;
                                Sign "Solana" keysignPayload messageHashes] in
                  match test_sign env with
                  | Throw message => (testSigningQR_failed message st3, calls)
                  | Return _ =>
                      (assign [Status "✅ Test signing successful! (not broadcasting)";
                               Loading false] st3, calls)
                  end
              end
          end
      end
  | _, _ => (st, [])
  end.

End MultiDevice.

(** ** [src/sdk.ts]: the functions exported besides the singleton *)

Module SdkApi.

(** A [FastVault] object, known by its id. *)
Record FastVault : Type := { vault_id : string }.

(** An entry of the SDK's [listVaults()], and the summary made of it. *)
Record SdkVault : Type := {
  sv_id : string;
  sv_name : string;
  sv_type : string;
  sv_createdAt : Z;
  sv_signers : list string
}.

Record VaultSummary : Type := {
  id : string;
  name : string;
  type : string;
  createdAt : Z
}.

Inductive Call : Type :=
| CreateFastVault (name email password : string)
| VerifyVault (vaultId code : string)
| VaultAddress (vault : FastVault) (chain : string)
| PrepareSendTx (coin : SecureWallet.Coin) (receiver : string) (amount : Z)
| ExtractMessageHashes (keysignPayload : SecureWallet.KeysignPayload)
| Sign (transaction : SecureWallet.KeysignPayload) (chain : string) (messageHashes : list string)
| BroadcastTx (chain : string) (keysignPayload : SecureWallet.KeysignPayload) (signature : string)
| ListVaults
| GetVaultById (id : string)
| FileText
| IsVaultEncrypted (content : string)
| ImportVault (content : string) (password : option string).

(** Every function below but [getAddress] and [sendTransaction] starts with
    [const sdk = getSDK()]; [answer] is what the SDK then resolves to. *)
Definition createFastVault (m : Sdk.Module_state) (answer : completion string)
    (name email password : string) : list Call * completion string :=
  match Sdk.getSDK m with
  | Throw message => ([], Throw message)
  | Return _ => ([CreateFastVault name email password], answer)
  end.

Definition verifyVault (m : Sdk.Module_state) (answer : completion FastVault)
    (vaultId code : string) : list Call * completion FastVault :=
  match Sdk.getSDK m with
  | Throw message => ([], Throw message)
  | Return _ => ([VerifyVault vaultId code], answer)
  end.

Definition getAddress (answer : completion string) (vault : FastVault) (chain : string)
  : list Call * completion string :=
  ([VaultAddress vault chain], answer).

Definition listVaults (m : Sdk.Module_state) (answer : completion (list SdkVault))
  : list Call * completion (list VaultSummary) :=
  match Sdk.getSDK m with
  | Throw message => ([], Throw message)
  | Return _ =>
      ([ListVaults],
       bind answer (fun vaults =>
         Return (map (fun v => {| id := sv_id v; name := sv_name v;
                                  type := sv_type v; createdAt := sv_createdAt v |}) vaults)))
  end.

Definition getVaultById (m : Sdk.Module_state) (answer : completion (option FastVault))
    (id : string) : list Call * completion FastVault :=
  match Sdk.getSDK m with
  | Throw message => ([], Throw message)
  | Return _ =>
      ([GetVaultById id],
       bind answer (fun vault =>
         match vault with
         | Some v => Return v
         | None => Throw "Vault not found"
         end))
  end.

(** A [Blob]: what [file.text()] resolves to. *)
Definition Blob : Type := completion string.

Definition isVaultFileEncrypted (m : Sdk.Module_state) (answer : completion bool) (file : Blob)
  : list Call * completion bool :=
  match Sdk.getSDK m with
  | Throw message => ([], Throw message)
  | Return _ =>
      match file with
      | Throw message => ([FileText], Throw message)
      | Return content => ([FileText; IsVaultEncrypted content], answer)
      end
  end.

Definition importVault (m : Sdk.Module_state) (answer : completion FastVault) (file : Blob)
    (password : option string) : list Call * completion FastVault :=
  match Sdk.getSDK m with
  | Throw message => ([], Throw message)
  | Return _ =>
      match file with
      | Throw message => ([FileText], Throw message)
      | Return content => ([FileText; ImportVault content password], answer)
      end
  end.

(** [chain === 'Solana' ? 9 : 18] and [chain === 'Solana' ? 'SOL' : 'ETH']. *)
Definition decimalsOf (chain : string) : Z := if chain =? "Solana" then 9 else 18.
Definition tickerOf (chain : string) : string := if chain =? "Solana" then "SOL" else "ETH".

(** [Math.pow(10, decimals)] at the two values [decimals] takes. *)
Definition pow10 (decimals : Z) : number :=
  if (decimals =? 9)%Z then 1e9%float else 1e18%float.

Record SendEnv : Type := {
  sender_address : completion string;
  parseFloat : string -> number;
  prepareSendTx : completion SecureWallet.KeysignPayload;
  extractMessageHashes : completion (list string);
  sign : completion string;
  broadcastTx : completion string
}.

Definition sendTransaction (env : SendEnv) (vault : FastVault) (toAddress amount chain : string)
  : list Call * completion string :=
  let address := VaultAddress vault chain in
  match sender_address env with
  | Throw message => ([address], Throw message)
  | Return senderAddress =>
      let decimals := decimalsOf chain in
      let ticker := tickerOf chain in
      match BigInt_floor (PrimFloat.mul (parseFloat env amount) (pow10 decimals)) with
      | Throw message => ([address], Throw message)
      | Return amountBaseUnits =>
          let coin := {| SecureWallet.coin_chain := chain;
                         SecureWallet.coin_address := senderAddress;
                         SecureWallet.coin_decimals := decimals;
                         SecureWallet.coin_ticker := ticker |} in
          let prepare := PrepareSendTx coin toAddress amountBaseUnits in
          match prepareSendTx env with
          | Throw message => ([address; prepare], Throw message)
          | Return keysignPayload =>
              let extract := ExtractMessageHashes keysignPayload in
              match extractMessageHashes env with
              | Throw message => ([address; prepare; extract], Throw message)
              | Return messageHashes =>
                  let signing := Sign keysignPayload chain messageHashes in
                  match sign env with
                  | Throw message => ([address; prepare; extract; signing], Throw message)
                  | Return signature =>
                      ([address; prepare; extract; signing;
                        BroadcastTx chain keysignPayload signature],
                       broadcastTx env)
                  end
              end
          end
      end
  end.

End SdkApi.

(** ** The fast-vault page (the page script that follows the Vite
    configuration in [src/vite.config.ts]) *)

Module FastVaultPage.

Inductive Step : Type :=
| step_loading | step_home | step_create | step_verify | step_import | step_wallet.

Module AppState.
Record t : Type := {
  step : Step;
  vaultId : option string;
  vault : option SdkApi.FastVault;
  existingVaults : list SdkApi.VaultSummary;
  solanaAddress : option string;
  balance : option number;
  loading : bool;
  error : option string;
  status : string;
  txHash : option string
}.
End AppState.

(** The module constant [state]. *)
Definition state : AppState.t :=
  {| AppState.step := step_loading;
     AppState.vaultId := None;
     AppState.vault := None;
     AppState.existingVaults := [];
     AppState.solanaAddress := None;
     AppState.balance := None;
     AppState.loading := false;
     AppState.error := None;
     AppState.status := "Initializing SDK...";
     AppState.txHash := None |}.

(** One assignment [state.field = v]. *)
Inductive Assignment : Type :=
| Step_ (v : Step)
| VaultId (v : option string)
| Vault (v : option SdkApi.FastVault)
| ExistingVaults (v : list SdkApi.VaultSummary)
| SolanaAddress (v : option string)
| Balance (v : option number)
| Loading (v : bool)
| Error (v : option string)
| Status (v : string)
| TxHash (v : option string).

Definition last_of {A : Type} (sel : Assignment -> option A) (l : list Assignment) (old : A) : A :=
  fold_left (fun acc u => match sel u with Some v => v | None => acc end) l old.

(** A run of assignments to [state], in order. *)
Definition assign (l : list Assignment) (st : AppState.t) : AppState.t :=
  {| AppState.step :=
       last_of (fun u => match u with Step_ v => Some v | _ => None end) l (AppState.step st);
     AppState.vaultId :=
       last_of (fun u => match u with VaultId v => Some v | _ => None end) l (AppState.vaultId st);
     AppState.vault :=
       last_of (fun u => match u with Vault v => Some v | _ => None end) l (AppState.vault st);
     AppState.existingVaults :=
       last_of (fun u => match u with ExistingVaults v => Some v | _ => None end) l
         (AppState.existingVaults st);
     AppState.solanaAddress :=
       last_of (fun u => match u with SolanaAddress v => Some v | _ => None end) l
         (AppState.solanaAddress st);
     AppState.balance :=
       last_of (fun u => match u with Balance v => Some v | _ => None end) l (AppState.balance st);
     AppState.loading :=
       last_of (fun u => match u with Loading v => Some v | _ => None end) l (AppState.loading st);
     AppState.error :=
       last_of (fun u => match u with Error v => Some v | _ => None end) l (AppState.error st);
     AppState.status :=
       last_of (fun u => match u with Status v => Some v | _ => None end) l (AppState.status st);
     AppState.txHash :=
       last_of (fun u => match u with TxHash v => Some v | _ => None end) l (AppState.txHash st) |}.

(** [err.message || fallback]. *)
Definition messageOr (message fallback : string) : string :=
  or_else (Some message) fallback.

(** [loadVaults]: a failure is logged and nothing else. *)
Definition loadVaults (m : Sdk.Module_state) (answer : completion (list SdkApi.SdkVault))
    (st : AppState.t) : AppState.t * list SdkApi.Call :=
  match SdkApi.listVaults m answer with
  | (calls, Return vaults) => (assign [ExistingVaults vaults] st, calls)
  | (calls, Throw _) => (st, calls)
  end.

(** [init]; [initialize] is how [sdkInstance.initialize()] settles if it is
    awaited. *)
Definition init (initialize : completion unit) (vaults : completion (list SdkApi.SdkVault))
    (m : Sdk.Module_state) (st : AppState.t)
  : Sdk.Module_state * AppState.t * list SdkApi.Call :=
  match Sdk.initializeSDK initialize m with
  | (m', Throw message) =>
      (m', assign [Error (Some ("SDK initialization failed: " ++ message));
                   Status "Initialization failed"] st, [])
  | (m', Return _) =>
      let '(st1, calls) := loadVaults m' vaults st in
      (m', assign [Step_ step_home; Status "Welcome to Vultisig"] st1, calls)
  end.

(** The navigation buttons. *)
Definition goCreate (st : AppState.t) : AppState.t := assign [Step_ step_create; Error None] st.
Definition goImport (st : AppState.t) : AppState.t := assign [Step_ step_import; Error None] st.
Definition goBack (st : AppState.t) : AppState.t := assign [Step_ step_home; Error None] st.

Definition goHome (m : Sdk.Module_state) (vaults : completion (list SdkApi.SdkVault))
    (st : AppState.t) : AppState.t * list SdkApi.Call :=
  loadVaults m vaults
    (assign [Step_ step_home; Vault None; VaultId None; SolanaAddress None; Balance None;
             Error None; TxHash None; Status "Welcome to Vultisig"] st).

Record CreateEnv : Type := {
  input_email : option string;
  input_password : option string;
  input_name : option string;
  created : completion string
}.

Definition handleCreate (env : CreateEnv) (m : Sdk.Module_state) (st : AppState.t)
  : AppState.t * list SdkApi.Call :=
  let name := or_else (input_name env) "My Solana Wallet" in
  if negb (truthy_opt (input_email env)) || negb (truthy_opt (input_password env))
  then (assign [Error (Some "Please enter email and password")] st, [])
  else
    let st1 := assign [Loading true; Error None; Status "Creating Fast Vault..."] st in
    match SdkApi.createFastVault m (created env) name
            (or_else (input_email env) "") (or_else (input_password env) "") with
    | (calls, Return vaultId) =>
        (assign [VaultId (Some vaultId); Status "Check your email for verification code";
                 Step_ step_verify; Loading false] st1, calls)
    | (calls, Throw message) =>
        (assign [Error (Some (messageOr message "Failed to create vault"));
                 Status "Error creating vault"; Loading false] st1, calls)
    end.

(** What the steps shared by [handleVerify], [handleUnlock] and
    [handleImport] get from the SDK and the network once the vault is
    there. *)
Record LoadEnv : Type := {
  vault_address : completion string;
  vault_balance : option number;
  reloaded : completion (list SdkApi.SdkVault)
}.

Record VerifyEnv : Type := {
  input_code : option string;
  verified : completion SdkApi.FastVault;
  verify_load : LoadEnv
}.

Definition handleVerify (env : VerifyEnv) (m : Sdk.Module_state) (st : AppState.t)
  : AppState.t * list SdkApi.Call :=
  if negb (truthy_opt (input_code env)) || negb (truthy_opt (AppState.vaultId st))
  then (assign [Error (Some "Please enter verification code")] st, [])
  else
    let st1 := assign [Loading true; Error None; Status "Verifying vault..."] st in
    let failed message s :=
      assign [Error (Some (messageOr message "Verification failed"));
              Status "Error verifying vault"; Loading false] s in
    match SdkApi.verifyVault m (verified env) (or_else (AppState.vaultId st) "")
            (or_else (input_code env) "") with
    | (calls, Throw message) => (failed message st1, calls)
    | (calls, Return vault) =>
        let st2 := assign [Vault (Some vault); Status "Getting Solana address..."] st1 in
        match SdkApi.getAddress (vault_address (verify_load env)) vault "Solana" with
        | (calls2, Throw message) => (failed message st2, (calls ++ calls2)%list)
        | (calls2, Return address) =>
            let st3 := assign [SolanaAddress (Some address);
                               Balance (vault_balance (verify_load env))] st2 in
            let '(st4, calls3) := loadVaults m (reloaded (verify_load env)) st3 in
            (assign [Status "Wallet ready!"; Step_ step_wallet; Loading false] st4,
             (calls ++ calls2 ++ calls3)%list)
        end
    end.

Record UnlockEnv : Type := {
  found : completion (option SdkApi.FastVault);
  unlock_address : completion string;
  unlock_balance : option number
}.

Definition handleUnlock (env : UnlockEnv) (vaultId : string) (m : Sdk.Module_state)
    (st : AppState.t) : AppState.t * list SdkApi.Call :=
  let st1 := assign [Loading true; Error None; Status "Unlocking vault..."] st in
  let failed message s :=
    assign [Error (Some (messageOr message "Failed to unlock vault"));
            Status "Error unlocking vault"; Loading false] s in
  match SdkApi.getVaultById m (found env) vaultId with
  | (calls, Throw message) => (failed message st1, calls)
  | (calls, Return vault) =>
      let st2 := assign [Vault (Some vault); VaultId (Some vaultId);
                         Status "Getting Solana address..."] st1 in
      match SdkApi.getAddress (unlock_address env) vault "Solana" with
      | (calls2, Throw message) => (failed message st2, (calls ++ calls2)%list)
      | (calls2, Return address) =>
          (assign [SolanaAddress (Some address); Balance (unlock_balance env);
                   Status "Wallet ready!"; Step_ step_wallet; Loading false] st2,
           (calls ++ calls2)%list)
      end
  end.

Record ImportEnv : Type := {
  input_file : option SdkApi.Blob;
  input_import_password : option string;
  encrypted : completion bool;
  imported : completion SdkApi.FastVault;
  import_load : LoadEnv
}.

Definition handleImport (env : ImportEnv) (m : Sdk.Module_state) (st : AppState.t)
  : AppState.t * list SdkApi.Call :=
  match input_file env with
  | None => (assign [Error (Some "Please select a .vult file")] st, [])
  | Some file =>
      let password := input_import_password env in
      let st1 := assign [Loading true; Error None; Status "Importing vault..."] st in
      let failed message s :=
        assign [Error (Some (messageOr message "Failed to import vault"));
                Status "Error importing vault"; Loading false] s in
      match SdkApi.isVaultFileEncrypted m (encrypted env) file with
      | (calls, Throw message) => (failed message st1, calls)
      | (calls, Return isEncrypted) =>
          if isEncrypted && negb (truthy_opt password)
          then
            (assign [Error (Some "This vault is encrypted. Please enter the password.");
                     Loading false; Status "Password required"; Loading false] st1, calls)
          else
            match SdkApi.importVault m (imported env) file
                    (if truthy_opt password then password else None) with
            | (calls2, Throw message) => (failed message st1, (calls ++ calls2)%list)
            | (calls2, Return vault) =>
                let st2 := assign [Vault (Some vault); VaultId (Some (SdkApi.vault_id vault));
                                   Status "Getting Solana address..."] st1 in
                match SdkApi.getAddress (vault_address (import_load env)) vault "Solana" with
                | (calls3, Throw message) =>
                    (failed message st2, (calls ++ calls2 ++ calls3)%list)
                | (calls3, Return address) =>
                    let st3 := assign [SolanaAddress (Some address);
                                       Balance (vault_balance (import_load env))] st2 in
                    let '(st4, calls4) := loadVaults m (reloaded (import_load env)) st3 in
                    (assign [Status "Vault imported!"; Step_ step_wallet; Loading false] st4,
                     (calls ++ calls2 ++ calls3 ++ calls4)%list)
                end
            end
      end
  end.

Record SendEnv : Type := {
  input_destination : option string;
  input_amount : option string;
  sdk_send : SdkApi.SendEnv;
  send_balance : option number
}.

Definition handleSend (env : SendEnv) (st : AppState.t) : AppState.t * list SdkApi.Call :=
  match AppState.vault st with
  | Some vault =>
      if negb (truthy_opt (input_destination env)) || negb (truthy_opt (input_amount env))
      then (assign [Error (Some "Please enter destination and amount")] st, [])
      else
        let st1 := assign [Loading true; Error None; TxHash None;
                           Status "Preparing transaction..."] st in
        match SdkApi.sendTransaction (sdk_send env) vault
                (or_else (input_destination env) "") (or_else (input_amount env) "")
                "Solana" with
        | (calls, Return txHash) =>
            let st2 := assign [TxHash (Some txHash); Status "Transaction sent!"] st1 in
            ((if truthy_opt (AppState.solanaAddress st2)
              then assign [Balance (send_balance env); Loading false] st2
              else assign [Loading false] st2), calls)
        | (calls, Throw message) =>
            (assign [Error (Some (messageOr message "Transaction failed"));
                     Status "Transaction failed"; Loading false] st1, calls)
        end
  | None => (assign [Error (Some "Please enter destination and amount")] st, [])
  end.

End FastVaultPage.

(** ** Vocabulary of the statements *)

(** The request [initiateTransaction] builds for destination [d] from the
    message hashes [hs]. *)
Definition requestOf (env : SecureWallet.InitiateEnv) (fromDeviceId : SecureWallet.DeviceId)
    (d : string) (hs : list string) : SecureWallet.PendingTxRequest.t :=
  let amount := or_else (SecureWallet.tx_amount env) "0.001" in
  {| SecureWallet.PendingTxRequest.fromDevice := fromDeviceId;
     SecureWallet.PendingTxRequest.toAddress := d;
     SecureWallet.PendingTxRequest.amount := amount;
     SecureWallet.PendingTxRequest.chain := "Solana";
     SecureWallet.PendingTxRequest.signingPayload :=
       SecureWallet.SigningRequestJSON "Solana" hs d amount (SecureWallet.Date_now env) |}.

(** The amount [initiateTransaction] hands to [prepareSendTx]. *)
Definition baseUnitsOf (env : SecureWallet.InitiateEnv) : completion Z :=
  BigInt_floor
    (PrimFloat.mul
       (SecureWallet.parseFloat env (or_else (SecureWallet.tx_amount env) "0.001"))
       1e9%float).


(** The signatures a run handed to [broadcastTx]. *)
Definition broadcastSignatures (calls : list MultiDevice.SdkCall) : list MultiDevice.Signature :=
  flat_map (fun c => match c with
                     | MultiDevice.BroadcastTx _ _ signature => [signature]
                     | _ => []
                     end) calls.

(** The claim, for a verification capability [verifySignature]: every
    signature a run of [sendTransaction] releases verifies against the
    message hashes of that run and the vault's key. *)
Definition releases_only_verified
    (verifySignature : list string -> MultiDevice.Signature -> string -> bool)
    (env : MultiDevice.SendEnv) (st : MultiDevice.AppState.t) : Prop :=
  forall hashes signature publicKey,
    MultiDevice.extractMessageHashes env = Return hashes ->
    option_map SecureWallet.vault_id (MultiDevice.AppState.vault st) = Some publicKey ->
    In signature (broadcastSignatures (snd (MultiDevice.sendTransaction env st))) ->
    verifySignature hashes signature publicKey = true.

(** ** Sample states and SDK answers, to run the pages on *)

(** A store of booleans on two devices, to run the adapter on. *)
Definition demo_stringify (b : bool) : string := if b then "true" else "false".

Definition demo_parse (s : string) : completion bool :=
  if s =? "true" then Return true
  else if s =? "false" then Return false
  else Throw "Unexpected token".

Definition demo_storage : LocalStorage.t :=
  [("device-a:vault", "true"); ("device-b:vault", "false"); ("device-a:seen", "false")].

Definition storage_a : PrefixedStorage.t := {| PrefixedStorage.prefix := "device-a" |}.
Definition storage_b : PrefixedStorage.t := {| PrefixedStorage.prefix := "device-b" |}.

Definition demo_vault : SecureWallet.SecureVault := {| SecureWallet.vault_id := "vault-1" |}.

Definition demo_device (id : SecureWallet.DeviceId) (name : string) (sdk : Sdk.Vultisig)
  : SecureWallet.DeviceState.t :=
  SecureWallet.spread (SecureWallet.createInitialDeviceState id name)
    [SecureWallet.Sdk_ (Some sdk); SecureWallet.Initialized true;
     SecureWallet.Vault (Some demo_vault); SecureWallet.VaultId (Some "vault-1");
     SecureWallet.SolanaAddress (Some "So1anaSender"); SecureWallet.Balance (Some 1%float);
     SecureWallet.Status "Vault ready"].

Definition demo_state : SecureWallet.AppState.t :=
  {| SecureWallet.AppState.activeDevice := SecureWallet.device_a;
     SecureWallet.AppState.deviceA := demo_device SecureWallet.device_a "Device A (Initiator)" 0;
     SecureWallet.AppState.deviceB := demo_device SecureWallet.device_b "Device B (Joiner)" 1;
     SecureWallet.AppState.sharedPayload := None;
     SecureWallet.AppState.sharedPayloadType := None;
     SecureWallet.AppState.pendingTransaction := None |}.

(** [parseFloat] on the amounts typed in the examples. *)
Definition demo_parseFloat (s : string) : number :=
  if s =? "0.001" then 0.001%float
  else if s =? "0" then 0%float
  else if s =? "-1" then (-1)%float
  else if s =? "0.5" then 0.5%float
  else nan.

Definition demo_initiate (destination amount : option string) (now : Z)
  : SecureWallet.InitiateEnv :=
  {| SecureWallet.tx_destination := destination;
     SecureWallet.tx_amount := amount;
     SecureWallet.sender_address := Return "So1anaSender";
     SecureWallet.parseFloat := demo_parseFloat;
     SecureWallet.prepareSendTx := Return {| SecureWallet.encoded := "keysign" |};
     SecureWallet.extractMessageHashes := Return ["a1b2"];
     SecureWallet.Date_now := now |}.

(** Device A has asked to send 0.5 SOL to [addrX]. *)
Definition demo_pending : SecureWallet.AppState.t :=
  fst (SecureWallet.initiateTransaction
         (demo_initiate (Some "addrX") (Some "0.5") 1700000000000)
         SecureWallet.device_a demo_state).

(** What the SDK answers to [sendTransaction] on the real-device page. *)
Definition demo_send (destination amount : option string) (signature : completion string)
  : MultiDevice.SendEnv :=
  {| MultiDevice.tx_destination := destination;
     MultiDevice.tx_amount := amount;
     MultiDevice.sender_address := Return "So1anaSender";
     MultiDevice.parseFloat := demo_parseFloat;
     MultiDevice.prepareSendTx := Return {| SecureWallet.encoded := "keysign" |};
     MultiDevice.extractMessageHashes := Return ["a1b2"];
     MultiDevice.sign_events :=
       [MultiDevice.sign_onQRCodeReady "vultisig://sign" (Return "data:image/png;base64,AAAA")];
     MultiDevice.sign := signature;
     MultiDevice.broadcastTx := Return "5xTxHash";
     MultiDevice.fetched_balance := Some 0.5%float |}.

(** The real-device page with a vault loaded. *)
Definition demo_wallet : MultiDevice.AppState.t :=
  {| MultiDevice.AppState.step := MultiDevice.step_wallet;
     MultiDevice.AppState.sdk := Some 0;
     MultiDevice.AppState.initialized := true;
     MultiDevice.AppState.vault := Some demo_vault;
     MultiDevice.AppState.vaultId := Some "vault-1";
     MultiDevice.AppState.solanaAddress := Some "So1anaSender";
     MultiDevice.AppState.balance := Some 1%float;
     MultiDevice.AppState.loading := false;
     MultiDevice.AppState.error := None;
     MultiDevice.AppState.status := "Wallet ready";
     MultiDevice.AppState.qrCodeDataUrl := None;
     MultiDevice.AppState.qrPayload := None;
     MultiDevice.AppState.devicesJoined := 0;
     MultiDevice.AppState.devicesRequired := 2;
     MultiDevice.AppState.signingInProgress := false;
     MultiDevice.AppState.txHash := None;
     MultiDevice.AppState.debugInfo := None |}.





(** ** Vocabulary and samples of the further properties *)

(** The wallet screen of the fast-vault page has a vault and an address to
    show. *)
Definition walletReady (st : FastVaultPage.AppState.t) : Prop :=
  FastVaultPage.AppState.step st = FastVaultPage.step_wallet ->
  FastVaultPage.AppState.vault st <> None
  /\ FastVaultPage.AppState.solanaAddress st <> None.

(** Two states of the two-tab page agree on what each device is and holds:
    its id and name, its SDK, and its vault. *)
Definition sameDevices (st st' : SecureWallet.AppState.t) : Prop :=
  forall id,
    SecureWallet.DeviceState.id (SecureWallet.deviceOf id st')
    = SecureWallet.DeviceState.id (SecureWallet.deviceOf id st)
    /\ SecureWallet.DeviceState.name (SecureWallet.deviceOf id st')
       = SecureWallet.DeviceState.name (SecureWallet.deviceOf id st)
    /\ SecureWallet.DeviceState.sdk (SecureWallet.deviceOf id st')
       = SecureWallet.DeviceState.sdk (SecureWallet.deviceOf id st)
    /\ SecureWallet.DeviceState.initialized (SecureWallet.deviceOf id st')
       = SecureWallet.DeviceState.initialized (SecureWallet.deviceOf id st)
    /\ SecureWallet.DeviceState.vault (SecureWallet.deviceOf id st')
       = SecureWallet.DeviceState.vault (SecureWallet.deviceOf id st)
    /\ SecureWallet.DeviceState.vaultId (SecureWallet.deviceOf id st')
       = SecureWallet.DeviceState.vaultId (SecureWallet.deviceOf id st).



(** The SDK singleton after a successful [initializeSDK()]. *)
Definition demo_sdk_ready : Sdk.Module_state :=
  fst (Sdk.initializeSDK (Return tt) Sdk.loaded).

Definition demo_fast_vault : SdkApi.FastVault := {| SdkApi.vault_id := "fast-1" |}.

(** The fast-vault page showing a wallet. *)
Definition demo_fast_wallet : FastVaultPage.AppState.t :=
  FastVaultPage.assign
    [FastVaultPage.Step_ FastVaultPage.step_wallet;
     FastVaultPage.Vault (Some demo_fast_vault);
     FastVaultPage.VaultId (Some "fast-1");
     FastVaultPage.SolanaAddress (Some "So1anaSender");
     FastVaultPage.Balance (Some 1%float);
     FastVaultPage.Status "Wallet ready!"] FastVaultPage.state.

Definition demo_sdk_send (signature : completion string) : SdkApi.SendEnv :=
  {| SdkApi.sender_address := Return "So1anaSender";
     SdkApi.parseFloat := demo_parseFloat;
     SdkApi.prepareSendTx := Return {| SecureWallet.encoded := "keysign" |};
     SdkApi.extractMessageHashes := Return ["a1b2"];
     SdkApi.sign := signature;
     SdkApi.broadcastTx := Return "5xTxHash" |}.

Definition demo_page_send (signature : completion string) : FastVaultPage.SendEnv :=
  {| FastVaultPage.input_destination := Some "addrX";
     FastVaultPage.input_amount := Some "0.5";
     FastVaultPage.sdk_send := demo_sdk_send signature;
     FastVaultPage.send_balance := Some 0.5%float |}.

Definition demo_import (password : option string) : FastVaultPage.ImportEnv :=
  {| FastVaultPage.input_file := Some (Return "vault-file-text");
     FastVaultPage.input_import_password := password;
     FastVaultPage.encrypted := Return true;
     FastVaultPage.imported := Return demo_fast_vault;
     FastVaultPage.import_load :=
       {| FastVaultPage.vault_address := Return "So1anaSender";
          FastVaultPage.vault_balance := Some 1%float;
          FastVaultPage.reloaded := Return [] |} |}.

(** The SDK's vault list with a fast vault stored before a secure one. *)
Definition demo_stored : list SecureWallet.StoredVault :=
  [{| SecureWallet.stored_vault := {| SecureWallet.vault_id := "fast-1" |};
      SecureWallet.stored_type := "fast" |};
   {| SecureWallet.stored_vault := demo_vault; SecureWallet.stored_type := "secure" |}].

Definition demo_init (vaults : list SecureWallet.StoredVault) (sdk : Sdk.Vultisig)
  : SecureWallet.InitEnv :=
  {| SecureWallet.new_sdk := sdk;
     SecureWallet.sdk_initialize := Return tt;
     SecureWallet.sdk_listVaults := Return vaults;
     SecureWallet.first_address := Return "So1anaSender";
     SecureWallet.first_balance := Some 1%float |}.

Definition demo_page_init (vaults : list SecureWallet.StoredVault) : MultiDevice.InitEnv :=
  {| MultiDevice.new_sdk := 0;
     MultiDevice.sdk_initialize := Return tt;
     MultiDevice.sdk_listVaults := Return vaults;
     MultiDevice.first_address := Return "So1anaSender";
     MultiDevice.first_balance := Some 1%float |}.

Definition demo_test (signature : completion string) : MultiDevice.TestEnv :=
  {| MultiDevice.test_sender_address := Return "So1anaSender";
     MultiDevice.test_prepareSendTx := Return {| SecureWallet.encoded := "keysign" |};
     MultiDevice.test_extractMessageHashes := Return ["a1b2"];
     MultiDevice.test_sign_events :=
       [MultiDevice.sign_onQRCodeReady "vultisig://sign" (Return "data:image/png;base64,AAAA")];
     MultiDevice.test_sign := signature |}.

(** * Properties *)

(** ** Strings *)

Section StringFacts.

Lemma append_assoc (a b c : string) : (a ++ b) ++ c = a ++ (b ++ c).
Proof. induction a as [|x a IH]; simpl; [reflexivity | now rewrite IH]. Qed.

Lemma append_empty_r (a : string) : a ++ "" = a.
Proof. induction a as [|x a IH]; simpl; [reflexivity | now rewrite IH]. Qed.

Lemma length_append (a b : string) :
  String.length (a ++ b) = String.length a + String.length b.
Proof. induction a as [|x a IH]; simpl; [reflexivity | now rewrite IH]. Qed.

Lemma append_inv_head (a b c : string) : a ++ b = a ++ c -> b = c.
Proof.
  induction a as [|x a IH]; simpl; intros H; [exact H|].
  injection H as H. now apply IH.
Qed.

Lemma prefix_append (a b : string) : String.prefix a (a ++ b) = true.
Proof.
  induction a as [|x a IH]; simpl.
  - now destruct b.
  - destruct (Ascii.ascii_dec x x) as [_|n]; [exact IH | now elim n].
Qed.

Lemma prefix_split (a s : string) :
  String.prefix a s = true -> exists b, s = a ++ b.
Proof.
  revert s; induction a as [|x a IH]; intros s H.
  - now exists s.
  - destruct s as [|y s]; simpl in H; [discriminate|].
    destruct (Ascii.ascii_dec x y) as [->|_]; [|discriminate].
    destruct (IH s H) as [b ->]. now exists b.
Qed.

Lemma substring_whole (s : string) : String.substring 0 (String.length s) s = s.
Proof. induction s as [|x s IH]; simpl; [reflexivity | now rewrite IH]. Qed.

Lemma slice_append (a b : string) : slice (String.length a) (a ++ b) = b.
Proof.
  unfold slice. rewrite length_append.
  replace (String.length a + String.length b - String.length a) with (String.length b) by lia.
  induction a as [|x a IH]; simpl; [apply substring_whole | exact IH].
Qed.

(** Two ways of cutting one string: one of the two heads continues the
    other. *)
Lemma append_comparable (a b x y : string) :
  a ++ x = b ++ y -> (exists r, a = b ++ r) \/ (exists r, b = a ++ r).
Proof.
  revert b; induction a as [|c a IH]; intros b H.
  - right. now exists b.
  - destruct b as [|d b].
    + left. now exists (String c a).
    + simpl in H. injection H as -> H.
      destruct (IH b H) as [[r ->]|[r ->]]; [left | right]; now exists r.
Qed.

End StringFacts.

Example slice_runs :
  slice 9 "device-a:vault" = "vault" /\ slice 3 "ab" = ""
  /\ slice_to 8 "0123456789abcdef" = "01234567" /\ slice_to 8 "abc" = "abc"
  /\ startsWith "device-a:vault" "device-a:" = true
  /\ startsWith "device-ab:vault" "device-a:" = false.
Proof. repeat split. Qed.

(** [BigInt(Math.floor(amount * 1e9))] on a few amounts. *)
Example BigInt_floor_runs :
  BigInt_floor (PrimFloat.mul 0.001%float 1e9%float) = Return 1000000%Z
  /\ BigInt_floor (PrimFloat.mul 2.5%float 1e9%float) = Return 2500000000%Z
  /\ BigInt_floor (PrimFloat.mul (-0.0000000015)%float 1e9%float) = Return (-2)%Z
  /\ BigInt_floor (PrimFloat.mul (-0)%float 1e9%float) = Return 0%Z
  /\ BigInt_floor (PrimFloat.mul nan 1e9%float)
     = Throw "The number NaN cannot be converted to a BigInt because it is not an integer".
Proof. vm_compute. repeat split. Qed.

(** ** [localStorage] *)

Section LocalStorageFacts.

Import LocalStorage.

Lemma getItem_setItem_same (ls : t) (k v : string) :
  getItem (setItem ls k v) k = Some v.
Proof.
  unfold getItem. induction ls as [|[k' v'] ls IH]; simpl.
  - now rewrite String.eqb_refl.
  - destruct (k' =? k) eqn:E; simpl.
    + now rewrite String.eqb_refl.
    + now rewrite E.
Qed.

Lemma getItem_setItem_other (ls : t) (k k' v : string) :
  k <> k' -> getItem (setItem ls k v) k' = getItem ls k'.
Proof.
  intros N. unfold getItem. induction ls as [|[k0 v0] ls IH]; simpl.
  - apply String.eqb_neq in N. now rewrite N.
  - destruct (k0 =? k) eqn:E; simpl.
    + apply String.eqb_eq in E; subst k0.
      apply String.eqb_neq in N. now rewrite N.
    + destruct (k0 =? k'); [reflexivity | exact IH].
Qed.

Lemma getItem_removeItem_other (ls : t) (k k' : string) :
  k <> k' -> getItem (removeItem ls k) k' = getItem ls k'.
Proof.
  intros N. unfold getItem, removeItem. induction ls as [|[k0 v0] ls IH]; simpl; [reflexivity|].
  destruct (k0 =? k) eqn:E; simpl.
  - apply String.eqb_eq in E; subst k0.
    apply String.eqb_neq in N. now rewrite N.
  - destruct (k0 =? k'); [reflexivity | exact IH].
Qed.

(** What a filter on the keys sees is not changed by writing or removing a
    key the filter rejects. *)
Lemma filter_keys_setItem (f : string -> bool) (ls : t) (k v : string) :
  f k = false -> filter f (keys (setItem ls k v)) = filter f (keys ls).
Proof.
  intros F. unfold keys. induction ls as [|[k0 v0] ls IH]; simpl.
  - now rewrite F.
  - destruct (k0 =? k) eqn:E; simpl.
    + apply String.eqb_eq in E; subst k0. reflexivity.
    + now rewrite IH.
Qed.

Lemma filter_keys_removeItem (f : string -> bool) (ls : t) (k : string) :
  f k = false -> filter f (keys (removeItem ls k)) = filter f (keys ls).
Proof.
  intros F. unfold keys, removeItem. induction ls as [|[k0 v0] ls IH]; simpl; [reflexivity|].
  destruct (k0 =? k) eqn:E; simpl.
  - apply String.eqb_eq in E; subst k0. now rewrite F.
  - now rewrite IH.
Qed.

(** Removing a list of keys, one after the other, keeps the entries whose
    key is not in the list. *)
Lemma fold_removeItem (ks : list string) (ls : t) :
  fold_left removeItem ks ls
  = filter (fun e => negb (existsb (fun k => fst e =? k) ks)) ls.
Proof.
  revert ls; induction ks as [|k ks IH]; intros ls; simpl.
  - induction ls as [|e ls IHl]; simpl; [reflexivity | now rewrite <- IHl].
  - rewrite IH. unfold removeItem.
    induction ls as [|e ls IHl]; simpl; [reflexivity|].
    destruct (fst e =? k); simpl; [exact IHl|].
    destruct (existsb (fun k0 => fst e =? k0) ks); simpl; [exact IHl | now rewrite IHl].
Qed.

End LocalStorageFacts.

(** ** [PrefixedStorage] *)

Section PrefixedStorageFacts.

Import LocalStorage PrefixedStorage.

Lemma scan_shift (e : string * string) (ls : LocalStorage.t) (this : PrefixedStorage.t)
    (f : string -> string) (n i : nat) (acc : Datatypes.list string) :
  scan (e :: ls) this f (S i) n acc = scan ls this f i n acc.
Proof.
  revert i acc; induction n as [|n IH]; intros i acc; simpl; [reflexivity|].
  unfold key; simpl.
  destruct (option_map fst (nth_error ls i)) as [k|]; [|apply IH].
  destruct (startsWith k (marker this)); apply IH.
Qed.

(** The index loop visits every key once, in order. *)
Lemma scan_filter (ls : LocalStorage.t) (this : PrefixedStorage.t) (f : string -> string)
    (acc : Datatypes.list string) :
  scan ls this f 0 (LocalStorage.length ls) acc
  = (acc ++ map f (filter (fun k => startsWith k (marker this)) (keys ls)))%list.
Proof.
  revert acc; induction ls as [|[k v] ls IH]; intros acc; simpl.
  - now rewrite app_nil_r.
  - unfold key; simpl.
    destruct (startsWith k (marker this)); rewrite scan_shift, IH; simpl.
    + now rewrite <- app_assoc.
    + reflexivity.
Qed.

Lemma list_filter (this : PrefixedStorage.t) (ls : LocalStorage.t) :
  list this ls
  = map (slice (String.length (prefix this) + 1))
      (filter (fun k => startsWith k (marker this)) (keys ls)).
Proof. unfold list. now rewrite scan_filter. Qed.

Lemma clear_filter (this : PrefixedStorage.t) (ls : LocalStorage.t) :
  clear this ls = filter (fun e => negb (startsWith (fst e) (marker this))) ls.
Proof.
  unfold clear. rewrite scan_filter, fold_removeItem. simpl. rewrite map_id.
  apply filter_ext_in. intros e He. f_equal.
  destruct (startsWith (fst e) (marker this)) eqn:S.
  - apply existsb_exists. exists (fst e). split; [|apply String.eqb_refl].
    apply filter_In. split; [|exact S]. unfold keys. now apply in_map.
  - apply not_true_is_false. intros H. apply existsb_exists in H.
    destruct H as [k [Hk E]]. apply String.eqb_eq in E. subst k.
    apply filter_In in Hk. destruct Hk as [_ Hk]. congruence.
Qed.

Lemma storageKey_marker (this : PrefixedStorage.t) (k : string) :
  storageKey this k = marker this ++ k.
Proof. unfold storageKey, marker. now rewrite append_assoc. Qed.

Lemma marker_length (this : PrefixedStorage.t) :
  String.length (marker this) = String.length (prefix this) + 1.
Proof. unfold marker. now rewrite length_append. Qed.

Lemma list_exact (this : PrefixedStorage.t) (ls : LocalStorage.t) (k : string) :
  In k (list this ls) <-> In (storageKey this k) (keys ls).
Proof.
  rewrite list_filter, in_map_iff. split.
  - intros [full [E H]]. apply filter_In in H. destruct H as [H S].
    apply prefix_split in S. destruct S as [b ->].
    rewrite <- marker_length, slice_append in E. subst b.
    now rewrite storageKey_marker.
  - intros H. exists (storageKey this k). split.
    + now rewrite storageKey_marker, <- marker_length, slice_append.
    + apply filter_In. split; [exact H|].
      rewrite storageKey_marker. apply prefix_append.
Qed.

(** Stores whose prefixes do not continue one another never meet in a key. *)
Lemma foreign_marker (p q : PrefixedStorage.t) (s : string) :
  ~ extends p q -> ~ extends q p ->
  startsWith s (marker p) = true -> startsWith s (marker q) = false.
Proof.
  intros Npq Nqp Sp. apply not_true_is_false. intros Sq.
  apply prefix_split in Sp. destruct Sp as [b ->].
  apply prefix_split in Sq. destruct Sq as [c E].
  unfold marker in E. rewrite !append_assoc in E.
  apply append_comparable in E. destruct E as [[r E]|[r E]].
  - apply Npq. now exists r.
  - apply Nqp. now exists r.
Qed.

Lemma foreign_key (p q : PrefixedStorage.t) (k k' : string) :
  ~ extends p q -> ~ extends q p -> storageKey p k <> storageKey q k'.
Proof.
  intros Npq Nqp E.
  assert (S : startsWith (storageKey p k) (marker q) = false).
  { apply (foreign_marker p q); try assumption.
    rewrite storageKey_marker. apply prefix_append. }
  rewrite E, storageKey_marker in S. unfold startsWith in S.
  now rewrite prefix_append in S.
Qed.

Lemma getItem_filter_keep (g : string -> bool) (ls : LocalStorage.t) (k : string) :
  g k = true -> getItem (filter (fun e => g (fst e)) ls) k = getItem ls k.
Proof.
  intros G. unfold getItem. induction ls as [|[k0 v0] ls IH]; simpl; [reflexivity|].
  destruct (g k0) eqn:G0; simpl.
  - destruct (k0 =? k); [reflexivity | exact IH].
  - destruct (k0 =? k) eqn:E; [|exact IH].
    apply String.eqb_eq in E. congruence.
Qed.

Lemma filter_keys_filter (f g : string -> bool) (ls : LocalStorage.t) :
  (forall k, f k = true -> g k = true) ->
  filter f (keys (filter (fun e => g (fst e)) ls)) = filter f (keys ls).
Proof.
  intros FG. unfold keys. induction ls as [|[k0 v0] ls IH]; simpl; [reflexivity|].
  destruct (g k0) eqn:G0; simpl.
  - now rewrite IH.
  - destruct (f k0) eqn:F0; [|exact IH].
    apply FG in F0. congruence.
Qed.

Section Codec.

Variable T : Type.
Variable JSON_stringify : T -> string.
Variable JSON_parse : string -> completion T.

Lemma get_set_same (this : PrefixedStorage.t) (ls : LocalStorage.t) (k : string) (v : T) :
  JSON_parse (JSON_stringify v) = Return v ->
  JSON_stringify v <> "" ->
  get T JSON_parse this (set T JSON_stringify this ls k v) k = Return (Some v).
Proof.
  intros RT NE. unfold get, set. rewrite getItem_setItem_same.
  unfold truthy. apply String.eqb_neq in NE. rewrite NE. simpl. now rewrite RT.
Qed.

(** [get] reads one entry of [localStorage] and nothing else. *)
Lemma get_ext (this : PrefixedStorage.t) (ls ls' : LocalStorage.t) (k : string) :
  getItem ls' (storageKey this k) = getItem ls (storageKey this k) ->
  get T JSON_parse this ls' k = get T JSON_parse this ls k.
Proof. intros E. unfold get. now rewrite E. Qed.

End Codec.

End PrefixedStorageFacts.

(** C9.  A value written by [set] is read back by [get] (when [JSON.parse]
    undoes [JSON.stringify] on it); [list] returns exactly the keys stored
    under ['p:'], with that marker stripped; [clear] removes exactly the
    entries whose key starts with ['p:']; and for two stores neither of whose
    prefixes extends the other (so that they are distinct), [set], [remove]
    and [clear] on one leave every [get] and the [list] of the other
    unchanged. *)
Theorem PrefixedStorage_roundtrip_and_isolation
    (T : Type) (JSON_stringify : T -> string) (JSON_parse : string -> completion T)
    (p q : PrefixedStorage.t) (ls : LocalStorage.t) (k : string) (v : T) :
  (JSON_parse (JSON_stringify v) = Return v -> JSON_stringify v <> "" ->
   PrefixedStorage.get T JSON_parse p (PrefixedStorage.set T JSON_stringify p ls k v) k
   = Return (Some v))
  /\ (forall k', In k' (PrefixedStorage.list p ls)
                 <-> In (PrefixedStorage.storageKey p k') (LocalStorage.keys ls))
  /\ PrefixedStorage.clear p ls
     = filter (fun e => negb (startsWith (fst e) (PrefixedStorage.marker p))) ls
  /\ (~ PrefixedStorage.extends p q -> ~ PrefixedStorage.extends q p ->
      forall k',
        PrefixedStorage.get T JSON_parse q (PrefixedStorage.set T JSON_stringify p ls k v) k'
        = PrefixedStorage.get T JSON_parse q ls k'
        /\ PrefixedStorage.list q (PrefixedStorage.set T JSON_stringify p ls k v)
           = PrefixedStorage.list q ls
        /\ PrefixedStorage.get T JSON_parse q (PrefixedStorage.remove p ls k) k'
           = PrefixedStorage.get T JSON_parse q ls k'
        /\ PrefixedStorage.list q (PrefixedStorage.remove p ls k) = PrefixedStorage.list q ls
        /\ PrefixedStorage.get T JSON_parse q (PrefixedStorage.clear p ls) k'
           = PrefixedStorage.get T JSON_parse q ls k'
        /\ PrefixedStorage.list q (PrefixedStorage.clear p ls) = PrefixedStorage.list q ls).
Proof.
  split; [apply get_set_same|].
  split; [intros k'; apply list_exact|].
  split; [apply clear_filter|].
  intros Npq Nqp k'.
  assert (K : forall k0, PrefixedStorage.storageKey p k0 <> PrefixedStorage.storageKey q k')
    by (intros k0; now apply foreign_key).
  assert (F : forall k0, startsWith (PrefixedStorage.storageKey p k0) (PrefixedStorage.marker q) = false).
  { intros k0. apply (foreign_marker p q); try assumption.
    rewrite storageKey_marker. apply prefix_append. }
  assert (G : forall s, startsWith s (PrefixedStorage.marker q) = true ->
                        negb (startsWith s (PrefixedStorage.marker p)) = true).
  { intros s S. now rewrite (foreign_marker q p s Nqp Npq S). }
  repeat split.
  - apply get_ext. unfold PrefixedStorage.set. now apply getItem_setItem_other.
  - rewrite !list_filter. unfold PrefixedStorage.set. now rewrite filter_keys_setItem.
  - apply get_ext. unfold PrefixedStorage.remove. now apply getItem_removeItem_other.
  - rewrite !list_filter. unfold PrefixedStorage.remove. now rewrite filter_keys_removeItem.
  - apply get_ext. rewrite clear_filter.
    apply (getItem_filter_keep (fun s => negb (startsWith s (PrefixedStorage.marker p)))).
    apply G. rewrite storageKey_marker. apply prefix_append.
  - rewrite !list_filter, clear_filter.
    now rewrite (filter_keys_filter _ (fun s => negb (startsWith s (PrefixedStorage.marker p)))).
Qed.

Example PrefixedStorage_runs :
  PrefixedStorage.list storage_a demo_storage = ["vault"; "seen"]
  /\ PrefixedStorage.clear storage_a demo_storage = [("device-b:vault", "false")]
  /\ PrefixedStorage.get bool demo_parse storage_b demo_storage "vault" = Return (Some false)
  /\ PrefixedStorage.get bool demo_parse storage_b demo_storage "seen" = Return None
  /\ PrefixedStorage.set bool demo_stringify storage_b demo_storage "seen" true
     = (demo_storage ++ [("device-b:seen", "true")])%list.
Proof. repeat split. Qed.

Lemma PrefixedStorage_roundtrip_and_isolation_witness :
  PrefixedStorage.get bool demo_parse storage_a
    (PrefixedStorage.set bool demo_stringify storage_a demo_storage "seen" true) "seen"
  = Return (Some true)
  /\ PrefixedStorage.list storage_b (PrefixedStorage.clear storage_a demo_storage)
     = PrefixedStorage.list storage_b demo_storage.
Proof.
  destruct (PrefixedStorage_roundtrip_and_isolation bool demo_stringify demo_parse
              storage_a storage_b demo_storage "seen" true) as [R [_ [_ I]]].
  split.
  - apply R; [reflexivity | discriminate].
  - apply (I (fun E => match E with ex_intro _ r H => ltac:(discriminate H) end)
             (fun E => match E with ex_intro _ r H => ltac:(discriminate H) end) "vault").
Defined.

(** ** [src/sdk.ts] *)

Section SdkFacts.

Import Sdk.

Lemma getSDK_throws_iff (m : Module_state) :
  getSDK m = Throw "SDK not initialized. Call initializeSDK() first."
  <-> sdkInstance m = None.
Proof.
  unfold getSDK. destruct (sdkInstance m); split; intros H; try reflexivity; discriminate.
Qed.

(** Once the variable is set, [initializeSDK] hands out the cached object:
    nothing is constructed, [initialize()] is not awaited. *)
Lemma initializeSDK_cached (outcome : completion unit) (m : Module_state) (sdk : Vultisig) :
  sdkInstance m = Some sdk -> initializeSDK outcome m = (m, Return sdk).
Proof. intros H. unfold initializeSDK. now rewrite H. Qed.

(** X27.  A first [initializeSDK()] whose [initialize()] resolves returns the
    object it constructed, records it as initialised, and from then on
    [getSDK()] and every later [initializeSDK()] return that same object. *)
Lemma initializeSDK_success (m : Module_state) :
  sdkInstance m = None ->
  let '(m', r) := initializeSDK (Return tt) m in
  r = Return (constructed m)
  /\ getSDK m' = Return (constructed m)
  /\ In (constructed m) (initialized m')
  /\ forall outcome, initializeSDK outcome m' = (m', Return (constructed m)).
Proof.
  intros H. unfold initializeSDK. rewrite H. simpl.
  repeat split; auto.
Qed.

(** The variable is assigned before [initialize()] is awaited: a rejected
    [initialize()] leaves the object in it. *)
Lemma initializeSDK_failure_keeps_instance (message : string) (m : Module_state) :
  sdkInstance m = None ->
  sdkInstance (fst (initializeSDK (Throw message) m)) = Some (constructed m)
  /\ initialized (fst (initializeSDK (Throw message) m)) = initialized m.
Proof. intros H. unfold initializeSDK. rewrite H. simpl. now split. Qed.

End SdkFacts.

(** C10, at an [initialize()] that rejects.  The first [initializeSDK()]
    fails with the SDK's error; afterwards [getSDK()] does not throw
    'SDK not initialized...' but returns the object whose [initialize()]
    never completed, and every later [initializeSDK()] returns that object
    without initializing it. *)
Theorem getSDK_after_failed_initializeSDK :
  let first := Sdk.initializeSDK (Throw "Failed to load WASM") Sdk.loaded in
  snd first = Throw "Failed to load WASM"
  /\ Sdk.getSDK (fst first) = Return 0
  /\ ~ In 0 (Sdk.initialized (fst first))
  /\ forall outcome,
       Sdk.initializeSDK outcome (fst first) = (fst first, Return 0).
Proof.
  simpl. repeat split; auto.
Qed.


(** ** [src/secure-wallet.ts] *)

Section SecureWalletFacts.

Import SecureWallet.

Lemma otherId_neq (id : DeviceId) : otherId id <> id.
Proof. destruct id; discriminate. Qed.

Lemma deviceOf_setDeviceState_same (id : DeviceId) (updates : list Update) (st : AppState.t) :
  deviceOf id (setDeviceState id updates st) = spread (deviceOf id st) updates.
Proof. now destruct id. Qed.

Lemma deviceOf_setDeviceState_other (id id' : DeviceId) (updates : list Update) (st : AppState.t) :
  id' <> id -> deviceOf id' (setDeviceState id updates st) = deviceOf id' st.
Proof. destruct id, id'; intros N; try reflexivity; now elim N. Qed.

Lemma pendingTransaction_setDeviceState (id : DeviceId) (updates : list Update) (st : AppState.t) :
  AppState.pendingTransaction (setDeviceState id updates st) = AppState.pendingTransaction st.
Proof. now destruct id. Qed.


(** [deleteVault] on a device that holds no vault does nothing at all. *)
Lemma deleteVault_without_vault (env : DeleteEnv) (deviceId : DeviceId) (st : AppState.t) :
  DeviceState.vault (deviceOf deviceId st) = None ->
  deleteVault env deviceId st = (st, []).
Proof.
  intros H. unfold deleteVault. rewrite H. now destruct (DeviceState.sdk _).
Qed.

Lemma deleteVault_deletes (env : DeleteEnv) (deviceId : DeviceId) (st : AppState.t)
    (sdk : Vultisig) (vault : SecureVault) :
  DeviceState.sdk (deviceOf deviceId st) = Some sdk ->
  DeviceState.vault (deviceOf deviceId st) = Some vault ->
  confirm env = true ->
  sdk_deleteVault env = Return tt ->
  deleteVault env deviceId st
  = (setDeviceState deviceId
       [Vault None; VaultId None; SolanaAddress None; Balance None; Status "Vault deleted"] st,
     [DeleteVault vault]).
Proof.
  intros Hs Hv Hc Hd. unfold deleteVault. now rewrite Hs, Hv, Hc, Hd.
Qed.

End SecureWalletFacts.

Section MultiDeviceFacts.

Import MultiDevice.

Lemma MultiDevice_deleteVault_without_vault (env : DeleteEnv) (st : AppState.t) :
  AppState.vault st = None -> deleteVault env st = (st, []).
Proof.
  intros H. unfold deleteVault. rewrite H. now destruct (AppState.sdk st).
Qed.

Lemma MultiDevice_deleteVault_deletes (env : DeleteEnv) (st : AppState.t)
    (sdk : Vultisig) (vault : SecureVault) :
  AppState.sdk st = Some sdk ->
  AppState.vault st = Some vault ->
  confirm env = true ->
  sdk_deleteVault env = Return tt ->
  deleteVault env st
  = (assign [Vault None; VaultId None; SolanaAddress None; Balance None;
             Step_ step_home; Status "Vault deleted"] st,
     [DeleteVault vault]).
Proof.
  intros Hs Hv Hc Hd. unfold deleteVault. now rewrite Hs, Hv, Hc, Hd.
Qed.

End MultiDeviceFacts.

(** C8.  On either page, a confirmed [deleteVault] that the SDK carries out
    asks the SDK once to delete the vault (share and registry entry are the
    SDK's) and clears the vault from the device's state; any further
    [deleteVault] on that device, whatever the user and the SDK would answer,
    changes nothing, calls nothing and raises nothing. *)
Theorem deleteVault_idempotent :
  (forall (env again : SecureWallet.DeleteEnv) (deviceId : SecureWallet.DeviceId)
          (st : SecureWallet.AppState.t) (sdk : SecureWallet.Vultisig)
          (vault : SecureWallet.SecureVault),
      SecureWallet.DeviceState.sdk (SecureWallet.deviceOf deviceId st) = Some sdk ->
      SecureWallet.DeviceState.vault (SecureWallet.deviceOf deviceId st) = Some vault ->
      SecureWallet.confirm env = true ->
      SecureWallet.sdk_deleteVault env = Return tt ->
      let st' := fst (SecureWallet.deleteVault env deviceId st) in
      snd (SecureWallet.deleteVault env deviceId st) = [SecureWallet.DeleteVault vault]
      /\ SecureWallet.DeviceState.vault (SecureWallet.deviceOf deviceId st') = None
      /\ SecureWallet.DeviceState.vaultId (SecureWallet.deviceOf deviceId st') = None
      /\ SecureWallet.DeviceState.error (SecureWallet.deviceOf deviceId st')
         = SecureWallet.DeviceState.error (SecureWallet.deviceOf deviceId st)
      /\ SecureWallet.deleteVault again deviceId st' = (st', []))
  /\ (forall (env again : MultiDevice.DeleteEnv) (st : MultiDevice.AppState.t)
             (sdk : MultiDevice.Vultisig) (vault : MultiDevice.SecureVault),
         MultiDevice.AppState.sdk st = Some sdk ->
         MultiDevice.AppState.vault st = Some vault ->
         MultiDevice.confirm env = true ->
         MultiDevice.sdk_deleteVault env = Return tt ->
         let st' := fst (MultiDevice.deleteVault env st) in
         snd (MultiDevice.deleteVault env st) = [MultiDevice.DeleteVault vault]
         /\ MultiDevice.AppState.vault st' = None
         /\ MultiDevice.AppState.vaultId st' = None
         /\ MultiDevice.AppState.error st' = MultiDevice.AppState.error st
         /\ MultiDevice.deleteVault again st' = (st', [])).
Proof.
  split.
  - intros env again deviceId st sdk vault Hs Hv Hc Hd.
    rewrite (deleteVault_deletes env deviceId st sdk vault Hs Hv Hc Hd). simpl.
    repeat split.
    + now rewrite deviceOf_setDeviceState_same.
    + now rewrite deviceOf_setDeviceState_same.
    + now rewrite deviceOf_setDeviceState_same.
    + apply deleteVault_without_vault. now rewrite deviceOf_setDeviceState_same.
  - intros env again st sdk vault Hs Hv Hc Hd.
    rewrite (MultiDevice_deleteVault_deletes env st sdk vault Hs Hv Hc Hd). simpl.
    repeat split. now apply MultiDevice_deleteVault_without_vault.
Qed.

Lemma deleteVault_idempotent_witness :
  SecureWallet.DeviceState.vault
    (SecureWallet.AppState.deviceB
       (fst (SecureWallet.deleteVault
               {| SecureWallet.confirm := true; SecureWallet.sdk_deleteVault := Return tt |}
               SecureWallet.device_b demo_state))) = None
  /\ MultiDevice.deleteVault
       {| MultiDevice.confirm := true; MultiDevice.sdk_deleteVault := Throw "storage error" |}
       (fst (MultiDevice.deleteVault
               {| MultiDevice.confirm := true; MultiDevice.sdk_deleteVault := Return tt |}
               demo_wallet))
     = (fst (MultiDevice.deleteVault
               {| MultiDevice.confirm := true; MultiDevice.sdk_deleteVault := Return tt |}
               demo_wallet), []).
Proof.
  destruct deleteVault_idempotent as [S M].
  destruct (S {| SecureWallet.confirm := true; SecureWallet.sdk_deleteVault := Return tt |}
              {| SecureWallet.confirm := true; SecureWallet.sdk_deleteVault := Return tt |}
              SecureWallet.device_b demo_state 1 demo_vault
              eq_refl eq_refl eq_refl eq_refl) as [_ [V _]].
  destruct (M {| MultiDevice.confirm := true; MultiDevice.sdk_deleteVault := Return tt |}
              {| MultiDevice.confirm := true; MultiDevice.sdk_deleteVault := Throw "storage error" |}
              demo_wallet 0 demo_vault eq_refl eq_refl eq_refl eq_refl) as [_ [_ [_ [_ I]]]].
  split; [exact V | exact I].
Defined.

Section InitiateFacts.

Import SecureWallet.

Variable env : InitiateEnv.
Variable fromDeviceId : DeviceId.
Variable st : AppState.t.
Variable vault : SecureVault.
Hypothesis has_vault : DeviceState.vault (deviceOf fromDeviceId st) = Some vault.

Lemma initiateTransaction_rejects_empty :
  truthy_opt (tx_destination env) = false ->
  initiateTransaction env fromDeviceId st
  = (setDeviceState fromDeviceId [Error (Some "Please enter destination address")] st, []).
Proof using has_vault.
  intros H. unfold initiateTransaction. now rewrite has_vault, H.
Qed.

Variable d : string.
Hypothesis destination : tx_destination env = Some d.
Hypothesis destination_nonempty : d <> "".

Lemma destination_truthy : truthy_opt (tx_destination env) = true.
Proof using destination destination_nonempty.
  rewrite destination. simpl. unfold truthy.
  apply String.eqb_neq in destination_nonempty. now rewrite destination_nonempty.
Qed.

Lemma destination_value : or_else (tx_destination env) "" = d.
Proof using destination destination_nonempty.
  rewrite destination. simpl. unfold truthy.
  apply String.eqb_neq in destination_nonempty. now rewrite destination_nonempty.
Qed.

Let preparing : AppState.t :=
  setDeviceState fromDeviceId
    [Loading true; Status "Preparing transaction..."; Error None] st.

Lemma initiateTransaction_accepts (sender : string) (n : Z) (kp : KeysignPayload)
    (hs : list string) :
  sender_address env = Return sender ->
  baseUnitsOf env = Return n ->
  prepareSendTx env = Return kp ->
  extractMessageHashes env = Return hs ->
  initiateTransaction env fromDeviceId st
  = (setDeviceState fromDeviceId
       [Loading false; Status "Waiting for approval...";
        SigningPayload (Some (PendingTxRequest.signingPayload (requestOf env fromDeviceId d hs)))]
       (setSession (Some (requestOf env fromDeviceId d hs))
          (Some (PendingTxRequest.signingPayload (requestOf env fromDeviceId d hs)))
          (Some signing) preparing),
     [Address "Solana";
      PrepareSendTx {| coin_chain := "Solana"; coin_address := sender;
                       coin_decimals := 9; coin_ticker := "SOL" |} d n;
      ExtractMessageHashes kp]).
Proof using has_vault destination destination_nonempty.
  intros Ha Hn Hp He. unfold initiateTransaction, baseUnitsOf in *.
  rewrite has_vault, destination_truthy, destination_value. simpl negb. cbv iota.
  rewrite Ha, Hn, Hp, He. reflexivity.
Qed.

(** Whichever of the four steps throws, the [catch] block runs on the state
    reached so far. *)
Lemma initiateTransaction_catches (message : string) :
  sender_address env = Throw message
  \/ (exists sender, sender_address env = Return sender /\ baseUnitsOf env = Throw message)
  \/ (exists sender n, sender_address env = Return sender /\ baseUnitsOf env = Return n
                       /\ prepareSendTx env = Throw message)
  \/ (exists sender n kp, sender_address env = Return sender /\ baseUnitsOf env = Return n
                          /\ prepareSendTx env = Return kp
                          /\ extractMessageHashes env = Throw message) ->
  fst (initiateTransaction env fromDeviceId st)
  = initiateTransaction_failed fromDeviceId message preparing.
Proof using has_vault destination destination_nonempty.
  unfold initiateTransaction, baseUnitsOf.
  rewrite has_vault, destination_truthy, destination_value. simpl negb. cbv iota.
  intros [Ha|[[sender [Ha Hn]]|[[sender [n [Ha [Hn Hp]]]]|[sender [n [kp [Ha [Hn [Hp He]]]]]]]]].
  - now rewrite Ha.
  - now rewrite Ha, Hn.
  - now rewrite Ha, Hn, Hp.
  - now rewrite Ha, Hn, Hp, He.
Qed.

End InitiateFacts.

Section SessionFacts.

Import SecureWallet.

Lemma failed_state (fromDeviceId : DeviceId) (message : string) (st : AppState.t) :
  let st' := initiateTransaction_failed fromDeviceId message st in
  AppState.pendingTransaction st' = None
  /\ AppState.sharedPayload st' = None
  /\ AppState.sharedPayloadType st' = None
  /\ DeviceState.error (deviceOf fromDeviceId st') = Some message
  /\ DeviceState.status (deviceOf fromDeviceId st') = "Transaction failed"
  /\ DeviceState.signingPayload (deviceOf fromDeviceId st') = None.
Proof. destruct fromDeviceId; repeat split. Qed.

Lemma rejectTransaction_state (st : AppState.t) :
  let st' := rejectTransaction st in
  AppState.pendingTransaction st' = None
  /\ AppState.sharedPayload st' = None
  /\ AppState.sharedPayloadType st' = None
  /\ DeviceState.status (AppState.deviceA st') = "Transaction rejected"
  /\ DeviceState.status (AppState.deviceB st') = "Transaction rejected"
  /\ DeviceState.loading (AppState.deviceA st') = false
  /\ DeviceState.loading (AppState.deviceB st') = false.
Proof. repeat split. Qed.

Lemma rejectTransaction_vault (id : DeviceId) (st : AppState.t) :
  DeviceState.vault (deviceOf id (rejectTransaction st)) = DeviceState.vault (deviceOf id st).
Proof. now destruct id. Qed.

Lemma approveTransaction_vault (env : ApproveEnv) (approver id : DeviceId) (st : AppState.t) :
  DeviceState.vault (deviceOf id (approveTransaction env approver st))
  = DeviceState.vault (deviceOf id st).
Proof.
  unfold approveTransaction.
  destruct (DeviceState.vault (deviceOf approver st)); [|reflexivity].
  destruct (AppState.pendingTransaction st); [|reflexivity].
  destruct (thrownAt env Joining); [now destruct approver, id|].
  destruct (thrownAt env Computing); [now destruct approver, id|].
  destruct (thrownAt env Combining); now destruct approver, id.
Qed.

End SessionFacts.

(** *** Two devices holding the vault, and what the SDK answers *)

(** C2, as the claim states it, fails: while device A's request for [addrX]
    is pending, device A is still offered the send form, and a second
    [initiateTransaction] is accepted without any error and replaces the
    pending request by the one for [addrY]. *)
Lemma second_initiate_replaces_pending :
  let env2 := demo_initiate (Some "addrY") (Some "0.001") 1700000000500 in
  let st2 := fst (SecureWallet.initiateTransaction env2 SecureWallet.device_a demo_pending) in
  option_map SecureWallet.PendingTxRequest.toAddress
    (SecureWallet.AppState.pendingTransaction demo_pending) = Some "addrX"
  /\ SecureWallet.sendFormShown demo_pending (SecureWallet.AppState.deviceA demo_pending) = true
  /\ option_map SecureWallet.PendingTxRequest.toAddress
       (SecureWallet.AppState.pendingTransaction st2) = Some "addrY"
  /\ SecureWallet.DeviceState.error (SecureWallet.AppState.deviceA st2) = None
  /\ SecureWallet.DeviceState.status (SecureWallet.AppState.deviceA st2)
     = "Waiting for approval...".
Proof. vm_compute. repeat split. Qed.

(** C2, amended.  The page has one [pendingTransaction] slot, and
    [initiateTransaction] never looks at it: on a device that holds the
    vault, with a destination typed in and an SDK that answers, the call
    succeeds whether or not a request is pending, and the slot and the shared
    payload then hold the new request; the same is true after the pending
    request was rejected or approved. *)
Theorem initiateTransaction_replaces_pending
    (env : SecureWallet.InitiateEnv) (fromDeviceId : SecureWallet.DeviceId)
    (st : SecureWallet.AppState.t) (vault : SecureWallet.SecureVault)
    (d sender : string) (n : Z) (kp : SecureWallet.KeysignPayload) (hs : list string) :
  SecureWallet.DeviceState.vault (SecureWallet.deviceOf fromDeviceId st) = Some vault ->
  SecureWallet.tx_destination env = Some d ->
  d <> "" ->
  SecureWallet.sender_address env = Return sender ->
  baseUnitsOf env = Return n ->
  SecureWallet.prepareSendTx env = Return kp ->
  SecureWallet.extractMessageHashes env = Return hs ->
  let accepted (st' : SecureWallet.AppState.t) :=
    SecureWallet.AppState.pendingTransaction st' = Some (requestOf env fromDeviceId d hs)
    /\ SecureWallet.AppState.sharedPayload st'
       = Some (SecureWallet.PendingTxRequest.signingPayload (requestOf env fromDeviceId d hs))
    /\ SecureWallet.AppState.sharedPayloadType st' = Some SecureWallet.signing
    /\ SecureWallet.DeviceState.error (SecureWallet.deviceOf fromDeviceId st') = None
    /\ SecureWallet.DeviceState.status (SecureWallet.deviceOf fromDeviceId st')
       = "Waiting for approval..." in
  accepted (fst (SecureWallet.initiateTransaction env fromDeviceId st))
  /\ accepted (fst (SecureWallet.initiateTransaction env fromDeviceId
                      (SecureWallet.rejectTransaction st)))
  /\ forall (aenv : SecureWallet.ApproveEnv) (approver : SecureWallet.DeviceId),
       accepted (fst (SecureWallet.initiateTransaction env fromDeviceId
                        (SecureWallet.approveTransaction aenv approver st))).
Proof.
  intros Hv Hd Hne Ha Hn Hp He accepted.
  assert (A : forall s, SecureWallet.DeviceState.vault (SecureWallet.deviceOf fromDeviceId s)
                        = Some vault ->
                        accepted (fst (SecureWallet.initiateTransaction env fromDeviceId s))).
  { intros s Hs.
    rewrite (initiateTransaction_accepts env fromDeviceId s vault Hs d Hd Hne sender n kp hs Ha Hn Hp He).
    unfold accepted. destruct fromDeviceId; repeat split. }
  split; [now apply A|]. split.
  - apply A. now rewrite rejectTransaction_vault.
  - intros aenv approver. apply A. now rewrite approveTransaction_vault.
Qed.

Lemma initiateTransaction_replaces_pending_witness :
  SecureWallet.AppState.pendingTransaction
    (fst (SecureWallet.initiateTransaction
            (demo_initiate (Some "addrY") (Some "0.001") 1700000000500)
            SecureWallet.device_a demo_pending))
  = Some (requestOf (demo_initiate (Some "addrY") (Some "0.001") 1700000000500)
            SecureWallet.device_a "addrY" ["a1b2"]).
Proof.
  refine (proj1 (proj1
    (initiateTransaction_replaces_pending
       (demo_initiate (Some "addrY") (Some "0.001") 1700000000500)
       SecureWallet.device_a demo_pending demo_vault "addrY" "So1anaSender" 1000000
       {| SecureWallet.encoded := "keysign" |} ["a1b2"] _ _ _ _ _ _ _))).
  - reflexivity.
  - reflexivity.
  - discriminate.
  - reflexivity.
  - vm_compute. reflexivity.
  - reflexivity.
  - reflexivity.
Defined.

(** C4, as the claim states it, fails: amounts of 0 and of -1 SOL are not
    refused.  The page floors them to 0 and -1000000000 lamports, hands them
    to [prepareSendTx], and, the SDK answering, records the pending request. *)
Lemma nonpositive_amount_accepted :
  let zero := demo_initiate (Some "addrX") (Some "0") 1700000000000 in
  let minus := demo_initiate (Some "addrX") (Some "-1") 1700000000000 in
  let coin := {| SecureWallet.coin_chain := "Solana";
                 SecureWallet.coin_address := "So1anaSender";
                 SecureWallet.coin_decimals := 9;
                 SecureWallet.coin_ticker := "SOL" |} in
  PrimFloat.leb (demo_parseFloat "0") 0%float = true
  /\ PrimFloat.leb (demo_parseFloat "-1") 0%float = true
  /\ SecureWallet.AppState.pendingTransaction
       (fst (SecureWallet.initiateTransaction zero SecureWallet.device_a demo_state))
     = Some (requestOf zero SecureWallet.device_a "addrX" ["a1b2"])
  /\ In (SecureWallet.PrepareSendTx coin "addrX" 0)
       (snd (SecureWallet.initiateTransaction zero SecureWallet.device_a demo_state))
  /\ SecureWallet.AppState.pendingTransaction
       (fst (SecureWallet.initiateTransaction minus SecureWallet.device_a demo_state))
     = Some (requestOf minus SecureWallet.device_a "addrX" ["a1b2"])
  /\ In (SecureWallet.PrepareSendTx coin "addrX" (-1000000000))
       (snd (SecureWallet.initiateTransaction minus SecureWallet.device_a demo_state))
  /\ SecureWallet.DeviceState.error
       (SecureWallet.AppState.deviceA
          (fst (SecureWallet.initiateTransaction minus SecureWallet.device_a demo_state)))
     = None.
Proof. vm_compute. repeat split; auto. Qed.

(** C4, amended.  On a device that holds the vault, [initiateTransaction]
    checks one thing itself: the destination must be non-empty.  With an
    empty (or missing) destination it sets the error
    'Please enter destination address', calls nothing and leaves the pending
    request and shared payload as they were.  Otherwise the destination and
    the floored amount go to [prepareSendTx] unchecked; when the SDK answers,
    the pending request carries the message hashes returned by
    [extractMessageHashes] for the payload [prepareSendTx] returned, and when
    any step throws, the thrown message becomes the device's error, the status
    is 'Transaction failed' and no pending request or shared payload is
    left. *)
Theorem initiateTransaction_validation
    (env : SecureWallet.InitiateEnv) (fromDeviceId : SecureWallet.DeviceId)
    (st : SecureWallet.AppState.t) (vault : SecureWallet.SecureVault) :
  SecureWallet.DeviceState.vault (SecureWallet.deviceOf fromDeviceId st) = Some vault ->
  let run := SecureWallet.initiateTransaction env fromDeviceId st in
  (truthy_opt (SecureWallet.tx_destination env) = false ->
   snd run = []
   /\ SecureWallet.DeviceState.error (SecureWallet.deviceOf fromDeviceId (fst run))
      = Some "Please enter destination address"
   /\ SecureWallet.AppState.pendingTransaction (fst run)
      = SecureWallet.AppState.pendingTransaction st
   /\ SecureWallet.AppState.sharedPayload (fst run) = SecureWallet.AppState.sharedPayload st)
  /\ (forall d, SecureWallet.tx_destination env = Some d -> d <> "" ->
      (forall sender n kp hs,
          SecureWallet.sender_address env = Return sender ->
          baseUnitsOf env = Return n ->
          SecureWallet.prepareSendTx env = Return kp ->
          SecureWallet.extractMessageHashes env = Return hs ->
          snd run
          = [SecureWallet.Address "Solana";
             SecureWallet.PrepareSendTx
               {| SecureWallet.coin_chain := "Solana"; SecureWallet.coin_address := sender;
                  SecureWallet.coin_decimals := 9; SecureWallet.coin_ticker := "SOL" |} d n;
             SecureWallet.ExtractMessageHashes kp]
          /\ SecureWallet.AppState.pendingTransaction (fst run)
             = Some (requestOf env fromDeviceId d hs))
      /\ (forall message,
             SecureWallet.sender_address env = Throw message
             \/ (exists sender, SecureWallet.sender_address env = Return sender
                                /\ baseUnitsOf env = Throw message)
             \/ (exists sender n, SecureWallet.sender_address env = Return sender
                                  /\ baseUnitsOf env = Return n
                                  /\ SecureWallet.prepareSendTx env = Throw message)
             \/ (exists sender n kp, SecureWallet.sender_address env = Return sender
                                     /\ baseUnitsOf env = Return n
                                     /\ SecureWallet.prepareSendTx env = Return kp
                                     /\ SecureWallet.extractMessageHashes env = Throw message) ->
             SecureWallet.DeviceState.error (SecureWallet.deviceOf fromDeviceId (fst run))
             = Some message
             /\ SecureWallet.DeviceState.status (SecureWallet.deviceOf fromDeviceId (fst run))
                = "Transaction failed"
             /\ SecureWallet.AppState.pendingTransaction (fst run) = None
             /\ SecureWallet.AppState.sharedPayload (fst run) = None)).
Proof.
  intros Hv run. split.
  - intros He. unfold run.
    rewrite (initiateTransaction_rejects_empty env fromDeviceId st vault Hv He).
    destruct fromDeviceId; repeat split.
  - intros d Hd Hne. split.
    + intros sender n kp hs Ha Hn Hp Hx. unfold run.
      rewrite (initiateTransaction_accepts env fromDeviceId st vault Hv d Hd Hne
                 sender n kp hs Ha Hn Hp Hx).
      split; [reflexivity | now destruct fromDeviceId].
    + intros message H. unfold run.
      rewrite (initiateTransaction_catches env fromDeviceId st vault Hv d Hd Hne message H).
      destruct (failed_state fromDeviceId message
                  (SecureWallet.setDeviceState fromDeviceId
                     [SecureWallet.Loading true;
                      SecureWallet.Status "Preparing transaction...";
                      SecureWallet.Error None] st)) as [P [S [_ [E [T _]]]]].
      repeat split; assumption.
Qed.

Lemma initiateTransaction_validation_witness :
  snd (SecureWallet.initiateTransaction (demo_initiate (Some "") (Some "0.5") 1700000000000)
         SecureWallet.device_b demo_pending) = []
  /\ SecureWallet.AppState.pendingTransaction
       (fst (SecureWallet.initiateTransaction
               (demo_initiate (Some "") (Some "0.5") 1700000000000)
               SecureWallet.device_b demo_pending))
     = SecureWallet.AppState.pendingTransaction demo_pending.
Proof.
  destruct (initiateTransaction_validation
              (demo_initiate (Some "") (Some "0.5") 1700000000000)
              SecureWallet.device_b demo_pending demo_vault eq_refl) as [E _].
  destruct (E eq_refl) as [C [_ [P _]]].
  split; [exact C | exact P].
Defined.

Section MultiDeviceSendFacts.

Import MultiDevice.

Lemma cancelSigning_state (st : AppState.t) :
  let st' := cancelSigning st in
  AppState.step st' = step_wallet
  /\ AppState.status st' = "Wallet ready"
  /\ AppState.loading st' = false
  /\ AppState.signingInProgress st' = false
  /\ AppState.qrCodeDataUrl st' = None
  /\ AppState.qrPayload st' = None
  /\ AppState.debugInfo st' = None
  /\ AppState.vault st' = AppState.vault st
  /\ AppState.sdk st' = AppState.sdk st.
Proof. repeat split. Qed.


Lemma sendTransaction_rejects_empty (env : SendEnv) (st : AppState.t)
    (vault : SecureVault) (sdk : Vultisig) :
  AppState.vault st = Some vault ->
  AppState.sdk st = Some sdk ->
  truthy_opt (tx_destination env) = false ->
  sendTransaction env st
  = (assign [Error (Some "Please enter a destination address")] st, []).
Proof.
  intros Hv Hs Hd. unfold sendTransaction, sendTransaction_prepare.
  now rewrite Hv, Hs, Hd.
Qed.

(** X26.  [cancelSigning] resets the page and nothing else: the awaited
    [vault.sign] is not told.  When it later resolves, the rest of
    [sendTransaction] runs on the reset page and broadcasts. *)
Lemma cancelSigning_does_not_stop_sign (env : SendEnv) (scope : SendScope) (st : AppState.t)
    (signature : Signature) (txHash : string) :
  sign env = Return signature ->
  broadcastTx env = Return txHash ->
  let run := sendTransaction_settle env scope (cancelSigning st) in
  snd run = [BroadcastTx "Solana" (scope_keysignPayload scope) signature]
  /\ AppState.txHash (fst run) = Some txHash
  /\ AppState.status (fst run) = "Transaction sent!".
Proof.
  intros Hs Hb. unfold sendTransaction_settle. rewrite Hs, Hb. repeat split.
Qed.

End MultiDeviceSendFacts.



(** *** The simulated ceremony *)

Section ApproveFacts.

Import SecureWallet.


(** The [catch] block of [approveTransaction] leaves the session where it
    was. *)
Lemma approveTransaction_failure_keeps_session (env : ApproveEnv) (approver : DeviceId)
    (st : AppState.t) (vault : SecureVault) (p : PendingTxRequest.t)
    (stage : SigningStage) (message : string) :
  DeviceState.vault (deviceOf approver st) = Some vault ->
  AppState.pendingTransaction st = Some p ->
  thrown env = Some (stage, message) ->
  let st' := approveTransaction env approver st in
  AppState.pendingTransaction st' = Some p
  /\ AppState.sharedPayload st' = AppState.sharedPayload st
  /\ AppState.sharedPayloadType st' = AppState.sharedPayloadType st
  /\ DeviceState.signingPayload (deviceOf (otherId approver) st')
     = DeviceState.signingPayload (deviceOf (otherId approver) st).
Proof.
  intros Hv Hp Ht. unfold approveTransaction, thrownAt.
  rewrite Hv, Hp, Ht.
  destruct stage, approver; repeat split; assumption.
Qed.


End ApproveFacts.


(** *** Released signatures *)

(** Whatever the verification capability is, a value it rejects is released
    when [vault.sign] resolves to it. *)
Lemma rejected_signature_is_released
    (verifySignature : list string -> MultiDevice.Signature -> string -> bool)
    (hashes : list string) (signature : MultiDevice.Signature) (publicKey : string) :
  verifySignature hashes signature publicKey = false ->
  exists env st, ~ releases_only_verified verifySignature env st.
Proof.
  intros R.
  exists {| MultiDevice.tx_destination := Some "addrX";
            MultiDevice.tx_amount := Some "0.5";
            MultiDevice.sender_address := Return "So1anaSender";
            MultiDevice.parseFloat := demo_parseFloat;
            MultiDevice.prepareSendTx := Return {| SecureWallet.encoded := "keysign" |};
            MultiDevice.extractMessageHashes := Return hashes;
            MultiDevice.sign_events := [];
            MultiDevice.sign := Return signature;
            MultiDevice.broadcastTx := Return "5xTxHash";
            MultiDevice.fetched_balance := None |}.
  exists (MultiDevice.assign
            [MultiDevice.Vault (Some {| SecureWallet.vault_id := publicKey |})] demo_wallet).
  intros H.
  specialize (H hashes signature publicKey eq_refl eq_refl).
  rewrite H in R; [discriminate|].
  vm_compute. left. reflexivity.
Qed.




(** *** Key generation *)

Section KeygenFacts.

Import SecureWallet.




End KeygenFacts.




(** * Further properties of the code *)

(** ** The storage adapter *)

Section MoreStorageFacts.

Lemma getItem_removeItem_same (ls : LocalStorage.t) (k : string) :
  LocalStorage.getItem (LocalStorage.removeItem ls k) k = None.
Proof.
  unfold LocalStorage.getItem, LocalStorage.removeItem.
  induction ls as [|[k0 v0] ls IH]; simpl; [reflexivity|].
  destruct (k0 =? k) eqn:E; simpl; [exact IH | now rewrite E].
Qed.

Lemma storageKey_inj (p : PrefixedStorage.t) (k k' : string) :
  PrefixedStorage.storageKey p k = PrefixedStorage.storageKey p k' -> k = k'.
Proof.
  unfold PrefixedStorage.storageKey. intros E.
  apply append_inv_head in E. now injection E.
Qed.

Lemma keys_setItem_present (ls : LocalStorage.t) (k v : string) :
  In k (LocalStorage.keys ls) ->
  LocalStorage.keys (LocalStorage.setItem ls k v) = LocalStorage.keys ls.
Proof.
  unfold LocalStorage.keys. induction ls as [|[k0 v0] ls IH]; simpl; [tauto|].
  intros [E|H].
  - subst k0. now rewrite String.eqb_refl.
  - destruct (k0 =? k) eqn:E; simpl.
    + apply String.eqb_eq in E. now subst k0.
    + now rewrite IH.
Qed.

Lemma keys_setItem_absent (ls : LocalStorage.t) (k v : string) :
  ~ In k (LocalStorage.keys ls) ->
  LocalStorage.keys (LocalStorage.setItem ls k v) = (LocalStorage.keys ls ++ [k])%list.
Proof.
  unfold LocalStorage.keys. induction ls as [|[k0 v0] ls IH]; simpl; [reflexivity|].
  intros N. destruct (k0 =? k) eqn:E; simpl.
  - apply String.eqb_eq in E. elim N. now left.
  - rewrite IH; [reflexivity|]. intros H. apply N. now right.
Qed.


Lemma keys_removeItem (ls : LocalStorage.t) (k : string) :
  LocalStorage.keys (LocalStorage.removeItem ls k)
  = filter (fun k0 => negb (k0 =? k)) (LocalStorage.keys ls).
Proof.
  unfold LocalStorage.keys, LocalStorage.removeItem.
  induction ls as [|[k0 v0] ls IH]; simpl; [reflexivity|].
  destruct (k0 =? k); simpl; now rewrite IH.
Qed.

Lemma keys_filter (g : string -> bool) (ls : LocalStorage.t) :
  LocalStorage.keys (filter (fun e => g (fst e)) ls) = filter g (LocalStorage.keys ls).
Proof.
  unfold LocalStorage.keys. induction ls as [|[k0 v0] ls IH]; simpl; [reflexivity|].
  destruct (g k0); simpl; now rewrite IH.
Qed.

Lemma filter_none {A : Type} (f : A -> bool) (l : list A) :
  (forall x, In x l -> f x = false) -> filter f l = [].
Proof.
  induction l as [|a l IH]; simpl; intros H; [reflexivity|].
  rewrite (H a (or_introl eq_refl)). apply IH. intros x Hx. apply H. now right.
Qed.

Lemma getItem_absent (ls : LocalStorage.t) (k : string) :
  ~ In k (LocalStorage.keys ls) -> LocalStorage.getItem ls k = None.
Proof.
  unfold LocalStorage.getItem, LocalStorage.keys.
  induction ls as [|[k0 v0] ls IH]; simpl; intros N; [reflexivity|].
  destruct (k0 =? k) eqn:E.
  - apply String.eqb_eq in E. elim N. now left.
  - apply IH. intros H. apply N. now right.
Qed.

Lemma slice_marker_inj (p : PrefixedStorage.t) (a b : string) :
  startsWith a (PrefixedStorage.marker p) = true ->
  startsWith b (PrefixedStorage.marker p) = true ->
  slice (String.length (PrefixedStorage.prefix p) + 1) a
  = slice (String.length (PrefixedStorage.prefix p) + 1) b ->
  a = b.
Proof.
  intros Ha Hb E.
  apply prefix_split in Ha. destruct Ha as [x ->].
  apply prefix_split in Hb. destruct Hb as [y ->].
  rewrite <- marker_length, !slice_append in E. now subst.
Qed.

Lemma NoDup_map_filter (p : PrefixedStorage.t) (l : list string) :
  NoDup l ->
  NoDup (map (slice (String.length (PrefixedStorage.prefix p) + 1))
           (filter (fun k => startsWith k (PrefixedStorage.marker p)) l)).
Proof.
  induction 1 as [|a l Ha Hl IH]; simpl; [constructor|].
  destruct (startsWith a (PrefixedStorage.marker p)) eqn:S; [|exact IH].
  simpl. constructor; [|exact IH].
  intros H. apply in_map_iff in H. destruct H as [b [E Hb]].
  apply filter_In in Hb. destruct Hb as [Hb Sb].
  apply (slice_marker_inj p b a Sb S) in E. subst b. contradiction.
Qed.

Lemma NoDup_filter {A : Type} (f : A -> bool) (l : list A) : NoDup l -> NoDup (filter f l).
Proof.
  induction 1 as [|a l Ha Hl IH]; simpl; [constructor|].
  destruct (f a); [|exact IH]. constructor; [|exact IH].
  intros H. apply filter_In in H. tauto.
Qed.

Lemma NoDup_keys_setItem (ls : LocalStorage.t) (k v : string) :
  NoDup (LocalStorage.keys ls) -> NoDup (LocalStorage.keys (LocalStorage.setItem ls k v)).
Proof.
  intros H. destruct (in_dec string_dec k (LocalStorage.keys ls)) as [I|N].
  - now rewrite keys_setItem_present.
  - rewrite keys_setItem_absent by assumption.
    apply NoDup_app; [exact H | repeat constructor; intros [] |].
    intros x Hx [<-|[]]. contradiction.
Qed.

End MoreStorageFacts.

(** X1.  After [remove(k)] the store reads [null] at [k], does not list [k]
    any more, and reads every other key as before. *)
Theorem PrefixedStorage_remove_forgets
    (T : Type) (JSON_parse : string -> completion T)
    (p : PrefixedStorage.t) (ls : LocalStorage.t) (k : string) :
  PrefixedStorage.get T JSON_parse p (PrefixedStorage.remove p ls k) k = Return None
  /\ ~ In k (PrefixedStorage.list p (PrefixedStorage.remove p ls k))
  /\ (forall k', k' <> k ->
        PrefixedStorage.get T JSON_parse p (PrefixedStorage.remove p ls k) k'
        = PrefixedStorage.get T JSON_parse p ls k')
  /\ (forall k', k' <> k ->
        (In k' (PrefixedStorage.list p (PrefixedStorage.remove p ls k))
         <-> In k' (PrefixedStorage.list p ls))).
Proof.
  unfold PrefixedStorage.remove. split; [|split; [|split]].
  - unfold PrefixedStorage.get. now rewrite getItem_removeItem_same.
  - rewrite list_exact, keys_removeItem. intros H. apply filter_In in H.
    destruct H as [_ H]. now rewrite String.eqb_refl in H.
  - intros k' N. apply get_ext. apply getItem_removeItem_other.
    intros E. apply storageKey_inj in E. congruence.
  - intros k' N. rewrite !list_exact, keys_removeItem. split.
    + intros H. apply filter_In in H. tauto.
    + intros H0. apply filter_In. split; [exact H0|].
      apply negb_true_iff, String.eqb_neq. intros E. apply storageKey_inj in E. congruence.
Qed.


(** X3.  [clear] empties the store: afterwards [list] is empty and every
    [get] reads [null]; clearing twice is clearing once. *)
Theorem PrefixedStorage_clear_empties
    (T : Type) (JSON_parse : string -> completion T)
    (p : PrefixedStorage.t) (ls : LocalStorage.t) :
  PrefixedStorage.list p (PrefixedStorage.clear p ls) = []
  /\ (forall k, PrefixedStorage.get T JSON_parse p (PrefixedStorage.clear p ls) k = Return None)
  /\ PrefixedStorage.clear p (PrefixedStorage.clear p ls) = PrefixedStorage.clear p ls.
Proof.
  split; [|split].
  - rewrite list_filter, clear_filter.
    rewrite (keys_filter (fun s => negb (startsWith s (PrefixedStorage.marker p)))).
    replace (filter _ (filter _ (LocalStorage.keys ls))) with (@nil string); [reflexivity|].
    symmetry. apply filter_none. intros x Hx. apply filter_In in Hx.
    destruct Hx as [_ Hx]. now apply negb_true_iff in Hx.
  - intros k. unfold PrefixedStorage.get. rewrite getItem_absent; [reflexivity|].
    rewrite clear_filter.
    rewrite (keys_filter (fun s => negb (startsWith s (PrefixedStorage.marker p)))).
    intros H. apply filter_In in H. destruct H as [_ H].
    rewrite storageKey_marker in H. unfold startsWith in H.
    now rewrite prefix_append in H.
  - rewrite !clear_filter.
    induction ls as [|e ls IH]; simpl; [reflexivity|].
    destruct (negb (startsWith (fst e) (PrefixedStorage.marker p))) eqn:E; simpl.
    + now rewrite E, IH.
    + exact IH.
Qed.

(** X4.  A store whose prefix continues another store's prefix with
    [':' + r] lives inside it: its key [k] is the other store's key
    [r + ':' + k], so the outer store lists and reads the inner store's
    entries, and clearing the outer store empties the inner one. *)
Theorem PrefixedStorage_nested_prefix_is_shared
    (T : Type) (JSON_stringify : T -> string) (JSON_parse : string -> completion T)
    (p q : PrefixedStorage.t) (r : string) (ls : LocalStorage.t) (k : string) (v : T) :
  PrefixedStorage.prefix q = PrefixedStorage.prefix p ++ ":" ++ r ->
  (In k (PrefixedStorage.list q ls) <-> In (r ++ ":" ++ k) (PrefixedStorage.list p ls))
  /\ PrefixedStorage.set T JSON_stringify q ls k v
     = PrefixedStorage.set T JSON_stringify p ls (r ++ ":" ++ k) v
  /\ PrefixedStorage.get T JSON_parse p ls (r ++ ":" ++ k)
     = PrefixedStorage.get T JSON_parse q ls k
  /\ PrefixedStorage.list q (PrefixedStorage.clear p ls) = [].
Proof.
  intros Hq.
  assert (K : forall k0, PrefixedStorage.storageKey q k0
                         = PrefixedStorage.storageKey p (r ++ ":" ++ k0)).
  { intros k0. unfold PrefixedStorage.storageKey. rewrite Hq.
    rewrite !append_assoc. reflexivity. }
  split; [split|split; [|split]].
  - intros H. apply list_exact. rewrite <- K. now apply list_exact.
  - intros H. apply list_exact. rewrite K. now apply list_exact.
  - unfold PrefixedStorage.set. now rewrite K.
  - unfold PrefixedStorage.get. now rewrite K.
  - rewrite list_filter, clear_filter.
    rewrite (keys_filter (fun s => negb (startsWith s (PrefixedStorage.marker p)))).
    replace (filter _ (filter _ (LocalStorage.keys ls))) with (@nil string); [reflexivity|].
    symmetry. apply filter_none. intros x Hx. apply filter_In in Hx.
    destruct Hx as [_ Hx]. apply negb_true_iff in Hx.
    apply not_true_is_false. intros S. apply prefix_split in S. destruct S as [b ->].
    unfold PrefixedStorage.marker in Hx. rewrite Hq in Hx.
    unfold startsWith in Hx. rewrite !append_assoc in Hx.
    rewrite <- (append_assoc (PrefixedStorage.prefix p) ":") in Hx.
    now rewrite prefix_append in Hx.
Qed.

Lemma PrefixedStorage_nested_prefix_is_shared_witness :
  PrefixedStorage.list {| PrefixedStorage.prefix := "device-a:cache" |}
    (PrefixedStorage.clear storage_a
       [("device-a:cache:x", "true"); ("device-b:vault", "false")]) = [].
Proof.
  exact (proj2 (proj2 (proj2
    (PrefixedStorage_nested_prefix_is_shared bool demo_stringify demo_parse
       storage_a {| PrefixedStorage.prefix := "device-a:cache" |} "cache"
       [("device-a:cache:x", "true"); ("device-b:vault", "false")] "x" true eq_refl)))).
Defined.

(** X5.  The storages of the two simulated devices,
    [new PrefixedStorage('device-a')] and [new PrefixedStorage('device-b')],
    do not see each other: whatever one device sets, removes or clears, every
    [get] and the [list] of the other device stay the same. *)
Theorem device_storages_isolated
    (T : Type) (JSON_stringify : T -> string) (JSON_parse : string -> completion T)
    (id : SecureWallet.DeviceId) (ls : LocalStorage.t) (k k' : string) (v : T) :
  let mine := SecureWallet.storageOf id in
  let other := SecureWallet.storageOf (SecureWallet.otherId id) in
  PrefixedStorage.get T JSON_parse other (PrefixedStorage.set T JSON_stringify mine ls k v) k'
  = PrefixedStorage.get T JSON_parse other ls k'
  /\ PrefixedStorage.get T JSON_parse other (PrefixedStorage.remove mine ls k) k'
     = PrefixedStorage.get T JSON_parse other ls k'
  /\ PrefixedStorage.get T JSON_parse other (PrefixedStorage.clear mine ls) k'
     = PrefixedStorage.get T JSON_parse other ls k'
  /\ PrefixedStorage.list other (PrefixedStorage.set T JSON_stringify mine ls k v)
     = PrefixedStorage.list other ls
  /\ PrefixedStorage.list other (PrefixedStorage.remove mine ls k)
     = PrefixedStorage.list other ls
  /\ PrefixedStorage.list other (PrefixedStorage.clear mine ls)
     = PrefixedStorage.list other ls.
Proof.
  intros mine other.
  assert (Nmo : ~ PrefixedStorage.extends mine other)
    by (unfold mine, other; destruct id; intros [r E]; discriminate E).
  assert (Nom : ~ PrefixedStorage.extends other mine)
    by (unfold mine, other; destruct id; intros [r E]; discriminate E).
  assert (K : forall k0, PrefixedStorage.storageKey mine k0
                         <> PrefixedStorage.storageKey other k')
    by (intros k0; now apply foreign_key).
  assert (F : forall k0, startsWith (PrefixedStorage.storageKey mine k0)
                           (PrefixedStorage.marker other) = false).
  { intros k0. apply (foreign_marker mine other); try assumption.
    rewrite storageKey_marker. apply prefix_append. }
  assert (G : forall s, startsWith s (PrefixedStorage.marker other) = true ->
                        negb (startsWith s (PrefixedStorage.marker mine)) = true).
  { intros s S. now rewrite (foreign_marker other mine s Nom Nmo S). }
  repeat split.
  - apply get_ext. unfold PrefixedStorage.set. now apply getItem_setItem_other.
  - apply get_ext. unfold PrefixedStorage.remove. now apply getItem_removeItem_other.
  - apply get_ext. rewrite clear_filter.
    apply (getItem_filter_keep (fun s => negb (startsWith s (PrefixedStorage.marker mine)))).
    apply G. rewrite storageKey_marker. apply prefix_append.
  - rewrite !list_filter. unfold PrefixedStorage.set. now rewrite filter_keys_setItem.
  - rewrite !list_filter. unfold PrefixedStorage.remove. now rewrite filter_keys_removeItem.
  - rewrite !list_filter, clear_filter.
    now rewrite (filter_keys_filter _ (fun s => negb (startsWith s (PrefixedStorage.marker mine)))).
Qed.

(** X6.  When no key occurs twice in [localStorage], none does after [set],
    [remove] or [clear], and [list] returns no key twice. *)
Theorem PrefixedStorage_keeps_keys_unique
    (T : Type) (JSON_stringify : T -> string)
    (p : PrefixedStorage.t) (ls : LocalStorage.t) (k : string) (v : T) :
  NoDup (LocalStorage.keys ls) ->
  NoDup (LocalStorage.keys (PrefixedStorage.set T JSON_stringify p ls k v))
  /\ NoDup (LocalStorage.keys (PrefixedStorage.remove p ls k))
  /\ NoDup (LocalStorage.keys (PrefixedStorage.clear p ls))
  /\ NoDup (PrefixedStorage.list p ls).
Proof.
  intros H. repeat split.
  - now apply NoDup_keys_setItem.
  - unfold PrefixedStorage.remove. rewrite keys_removeItem. now apply NoDup_filter.
  - rewrite clear_filter.
    rewrite (keys_filter (fun s => negb (startsWith s (PrefixedStorage.marker p)))).
    now apply NoDup_filter.
  - rewrite list_filter. now apply NoDup_map_filter.
Qed.

Lemma PrefixedStorage_keeps_keys_unique_witness :
  NoDup (PrefixedStorage.list storage_a demo_storage).
Proof.
  refine (proj2 (proj2 (proj2
    (PrefixedStorage_keeps_keys_unique bool demo_stringify storage_a demo_storage "seen" true _)))).
  repeat constructor; simpl; intuition discriminate.
Defined.

(** ** [src/sdk.ts]: the exported functions *)

(** Take apart what is known about a log of calls. *)
Ltac in_calls :=
  repeat match goal with
         | H : In _ _ |- _ => simpl in H
         | H : _ \/ _ |- _ => destruct H
         | H : False |- _ => destruct H
         | H : @eq SdkApi.Call _ _ |- _ => first [discriminate H | injection H as; subst]
         | H : @eq MultiDevice.SdkCall _ _ |- _ => first [discriminate H | injection H as; subst]
         end.

(** X7.  Before the SDK object exists, the six functions of [sdk.ts] that
    start with [getSDK()] fail with 'SDK not initialized. Call
    initializeSDK() first.' and ask nothing of the SDK (a file is not even
    read), whatever their arguments. *)
Theorem wrappers_need_the_sdk (m : Sdk.Module_state) :
  Sdk.sdkInstance m = None ->
  let refused {A : Type} (r : list SdkApi.Call * completion A) :=
    r = ([], Throw "SDK not initialized. Call initializeSDK() first.") in
  (forall answer name email password,
      refused (SdkApi.createFastVault m answer name email password))
  /\ (forall answer vaultId code, refused (SdkApi.verifyVault m answer vaultId code))
  /\ (forall answer, refused (SdkApi.listVaults m answer))
  /\ (forall answer id, refused (SdkApi.getVaultById m answer id))
  /\ (forall answer file, refused (SdkApi.isVaultFileEncrypted m answer file))
  /\ (forall answer file password, refused (SdkApi.importVault m answer file password)).
Proof.
  intros H refused. unfold refused, SdkApi.createFastVault, SdkApi.verifyVault,
    SdkApi.listVaults, SdkApi.getVaultById, SdkApi.isVaultFileEncrypted,
    SdkApi.importVault, Sdk.getSDK.
  rewrite H. repeat split.
Qed.

Lemma wrappers_need_the_sdk_witness :
  SdkApi.listVaults Sdk.loaded (Return [])
  = ([], Throw "SDK not initialized. Call initializeSDK() first.").
Proof.
  exact (proj1 (proj2 (proj2 (wrappers_need_the_sdk Sdk.loaded eq_refl))) (Return [])).
Defined.

(** X8.  [sendTransaction] of [sdk.ts] works in a fixed order and stops at
    the first failure.  It first asks the vault's address on the chain; the
    coin it prepares has 9 decimals and ticker SOL on 'Solana' and 18
    decimals and ticker ETH on every other chain; it signs the payload that
    [prepareSendTx] returned with the hashes that [extractMessageHashes]
    returned; it broadcasts only a signature that [vault.sign] returned, with
    that same payload; and when it returns a transaction hash, that hash is
    what [broadcastTx] answered. *)
Theorem sdk_sendTransaction_in_order
    (env : SdkApi.SendEnv) (vault : SdkApi.FastVault) (toAddress amount chain : string) :
  let run := SdkApi.sendTransaction env vault toAddress amount chain in
  hd_error (fst run) = Some (SdkApi.VaultAddress vault chain)
  /\ (forall coin receiver n,
         In (SdkApi.PrepareSendTx coin receiver n) (fst run) ->
         receiver = toAddress
         /\ SecureWallet.coin_chain coin = chain
         /\ SdkApi.sender_address env = Return (SecureWallet.coin_address coin)
         /\ SecureWallet.coin_decimals coin = (if chain =? "Solana" then 9%Z else 18%Z)
         /\ SecureWallet.coin_ticker coin = (if chain =? "Solana" then "SOL" else "ETH"))
  /\ (forall kp c hs,
         In (SdkApi.Sign kp c hs) (fst run) ->
         c = chain /\ SdkApi.prepareSendTx env = Return kp
         /\ SdkApi.extractMessageHashes env = Return hs)
  /\ (forall c kp signature,
         In (SdkApi.BroadcastTx c kp signature) (fst run) ->
         c = chain /\ SdkApi.prepareSendTx env = Return kp
         /\ SdkApi.sign env = Return signature
         /\ snd run = SdkApi.broadcastTx env)
  /\ (forall txHash,
         snd run = Return txHash ->
         SdkApi.broadcastTx env = Return txHash
         /\ exists kp signature, In (SdkApi.BroadcastTx chain kp signature) (fst run)).
Proof.
  unfold SdkApi.sendTransaction, SdkApi.decimalsOf, SdkApi.tickerOf.
  destruct (SdkApi.sender_address env) as [sender|m1];
    [destruct (BigInt_floor _) as [n0|m2];
     [destruct (SdkApi.prepareSendTx env) as [kp0|m3];
      [destruct (SdkApi.extractMessageHashes env) as [hs0|m4];
       [destruct (SdkApi.sign env) as [s0|m5]|]|]|]|];
    cbv zeta; simpl fst; simpl snd;
    (split; [reflexivity|]);
    (split; [intros coin receiver n H; in_calls; repeat split|]);
    (split; [intros kp c hs H; in_calls; repeat split|]);
    (split; [intros c kp s H; in_calls; repeat split|]);
    intros h H; try discriminate H.
  split; [exact H|]. exists kp0, s0. simpl. tauto.
Qed.

(** ** The fast-vault page *)

Section FastVaultPageFacts.

Import FastVaultPage.

(** [loadVaults] writes the list of vaults and nothing else. *)
Lemma loadVaults_frame (m : Sdk.Module_state) (answer : completion (list SdkApi.SdkVault))
    (st : AppState.t) :
  let st' := fst (loadVaults m answer st) in
  AppState.step st' = AppState.step st
  /\ AppState.vault st' = AppState.vault st
  /\ AppState.vaultId st' = AppState.vaultId st
  /\ AppState.solanaAddress st' = AppState.solanaAddress st
  /\ AppState.loading st' = AppState.loading st
  /\ AppState.error st' = AppState.error st
  /\ AppState.status st' = AppState.status st
  /\ AppState.txHash st' = AppState.txHash st.
Proof.
  unfold loadVaults, SdkApi.listVaults.
  destruct (Sdk.getSDK m); [destruct answer|]; simpl; repeat split.
Qed.

End FastVaultPageFacts.

(** Name what [loadVaults] returns and recall what it leaves alone. *)
Ltac name_loadVaults :=
  match goal with
  | |- context [FastVaultPage.loadVaults ?m ?a ?s] =>
      let F := fresh "F" in
      pose proof (loadVaults_frame m a s) as F;
      destruct (FastVaultPage.loadVaults m a s); cbv zeta in F; simpl fst in F;
      decompose [and] F; clear F
  end.

(** Split on the conditions and SDK answers a handler branches on. *)
Ltac branches :=
  repeat match goal with
         | |- context [match ?x with _ => _ end] =>
             lazymatch x with
             | context [FastVaultPage.loadVaults] => fail
             | _ => destruct x eqn:?
             end
         end.

(** X9.  No handler of the fast-vault page leaves the page loading: when the
    page is not loading before [handleCreate], [handleVerify],
    [handleImport] or [handleSend], it is not loading after, whatever the
    inputs and the SDK's answers; after [handleUnlock] it never is. *)
Theorem fast_vault_handlers_stop_loading (m : Sdk.Module_state) (st : FastVaultPage.AppState.t) :
  FastVaultPage.AppState.loading st = false ->
  (forall env, FastVaultPage.AppState.loading (fst (FastVaultPage.handleCreate env m st)) = false)
  /\ (forall env, FastVaultPage.AppState.loading (fst (FastVaultPage.handleVerify env m st)) = false)
  /\ (forall env, FastVaultPage.AppState.loading (fst (FastVaultPage.handleImport env m st)) = false)
  /\ (forall env, FastVaultPage.AppState.loading (fst (FastVaultPage.handleSend env st)) = false)
  /\ (forall env vaultId st0,
         FastVaultPage.AppState.loading (fst (FastVaultPage.handleUnlock env vaultId m st0)) = false).
Proof.
  intros L. split; [|split; [|split; [|split]]].
  - intros env. unfold FastVaultPage.handleCreate. branches; simpl; auto.
  - intros env. unfold FastVaultPage.handleVerify. branches; try name_loadVaults; simpl; auto.
  - intros env. unfold FastVaultPage.handleImport. branches; try name_loadVaults; simpl; auto.
  - intros env. unfold FastVaultPage.handleSend. branches; simpl; auto.
  - intros env vaultId st0. unfold FastVaultPage.handleUnlock. branches; simpl; auto.
Qed.

Lemma fast_vault_handlers_stop_loading_witness :
  FastVaultPage.AppState.loading
    (fst (FastVaultPage.handleSend (demo_page_send (Throw "relay timeout")) demo_fast_wallet))
  = false.
Proof.
  exact (proj1 (proj2 (proj2 (proj2
    (fast_vault_handlers_stop_loading demo_sdk_ready demo_fast_wallet eq_refl))))
    (demo_page_send (Throw "relay timeout"))).
Defined.

(** X10.  [handleImport] never hands an encrypted file to [importVault]
    without a password: when the SDK says the file is encrypted and the
    password field is empty, the file is read and examined and nothing more
    is called; the page asks for the password, stops loading, and keeps its
    step and vault. *)
Theorem handleImport_asks_for_the_password
    (env : FastVaultPage.ImportEnv) (m : Sdk.Module_state) (st : FastVaultPage.AppState.t)
    (sdk : Sdk.Vultisig) (content : string) :
  Sdk.sdkInstance m = Some sdk ->
  FastVaultPage.input_file env = Some (Return content) ->
  FastVaultPage.encrypted env = Return true ->
  truthy_opt (FastVaultPage.input_import_password env) = false ->
  let run := FastVaultPage.handleImport env m st in
  snd run = [SdkApi.FileText; SdkApi.IsVaultEncrypted content]
  /\ FastVaultPage.AppState.error (fst run)
     = Some "This vault is encrypted. Please enter the password."
  /\ FastVaultPage.AppState.status (fst run) = "Password required"
  /\ FastVaultPage.AppState.loading (fst run) = false
  /\ FastVaultPage.AppState.step (fst run) = FastVaultPage.AppState.step st
  /\ FastVaultPage.AppState.vault (fst run) = FastVaultPage.AppState.vault st
  /\ FastVaultPage.AppState.vaultId (fst run) = FastVaultPage.AppState.vaultId st.
Proof.
  intros Hm Hf He Hp.
  unfold FastVaultPage.handleImport, SdkApi.isVaultFileEncrypted, Sdk.getSDK.
  rewrite Hf, Hm, He, Hp. simpl. repeat split.
Qed.

Lemma handleImport_asks_for_the_password_witness :
  snd (FastVaultPage.handleImport (demo_import (Some "")) demo_sdk_ready FastVaultPage.state)
  = [SdkApi.FileText; SdkApi.IsVaultEncrypted "vault-file-text"].
Proof.
  exact (proj1 (handleImport_asks_for_the_password (demo_import (Some "")) demo_sdk_ready
                  FastVaultPage.state 0 "vault-file-text" eq_refl eq_refl eq_refl eq_refl)).
Defined.

(** X11.  [init] brings the page to the home step exactly when
    [initializeSDK()] returns: a failure to list the vaults is swallowed by
    [loadVaults] and does not keep the page from it, while a failing
    [initializeSDK()] leaves the step as it was, asks for no vault list and
    shows 'SDK initialization failed: ' followed by the error's message. *)
Theorem init_reaches_home
    (initialize : completion unit) (vaults : completion (list SdkApi.SdkVault))
    (m : Sdk.Module_state) (st : FastVaultPage.AppState.t) :
  let run := FastVaultPage.init initialize vaults m st in
  let st' := snd (fst run) in
  fst (fst run) = fst (Sdk.initializeSDK initialize m)
  /\ (forall sdk, snd (Sdk.initializeSDK initialize m) = Return sdk ->
        FastVaultPage.AppState.step st' = FastVaultPage.step_home
        /\ FastVaultPage.AppState.status st' = "Welcome to Vultisig"
        /\ FastVaultPage.AppState.error st' = FastVaultPage.AppState.error st
        /\ snd run = [SdkApi.ListVaults])
  /\ (forall message, snd (Sdk.initializeSDK initialize m) = Throw message ->
        FastVaultPage.AppState.step st' = FastVaultPage.AppState.step st
        /\ FastVaultPage.AppState.status st' = "Initialization failed"
        /\ FastVaultPage.AppState.error st'
           = Some ("SDK initialization failed: " ++ message)
        /\ snd run = []).
Proof.
  unfold FastVaultPage.init.
  destruct (Sdk.initializeSDK initialize m) as [m' [sdk|message]] eqn:I.
  - assert (G : Sdk.getSDK m' = Return sdk).
    { unfold Sdk.initializeSDK in I. unfold Sdk.getSDK.
      destruct (Sdk.sdkInstance m) as [s|] eqn:S.
      - injection I as <- <-. now rewrite S.
      - destruct initialize; [|discriminate I]. now injection I as <- <-. }
    pose proof (loadVaults_frame m' vaults st) as F.
    unfold FastVaultPage.loadVaults, SdkApi.listVaults in *. rewrite G in *.
    destruct vaults as [vs|e]; simpl in *;
      (split; [reflexivity|]); (split; [|intros ? H; discriminate H]);
      intros s _; repeat split.
  - simpl. split; [reflexivity|]. split; [intros s H; discriminate H|].
    intros e H. injection H as <-. repeat split.
Qed.

(** Close one case of the invariant [walletReady]: the step is not the
    wallet step, or nothing relevant changed, or a vault and an address were
    just written. *)
Ltac keep_wallet W :=
  simpl in *;
  first
    [ let X := fresh in intros X; discriminate X
    | exact W
    | let X := fresh in
      intros X; split;
      first [ discriminate | congruence | (destruct (W X); congruence) ] ].

(** X12.  The fast-vault page shows its wallet step only with a vault and an
    address loaded, and every handler and navigation button keeps it so. *)
Theorem wallet_step_has_a_vault (m : Sdk.Module_state) (st : FastVaultPage.AppState.t) :
  walletReady st ->
  walletReady FastVaultPage.state
  /\ (forall i v, walletReady (snd (fst (FastVaultPage.init i v m st))))
  /\ (forall env, walletReady (fst (FastVaultPage.handleCreate env m st)))
  /\ (forall env, walletReady (fst (FastVaultPage.handleVerify env m st)))
  /\ (forall env id, walletReady (fst (FastVaultPage.handleUnlock env id m st)))
  /\ (forall env, walletReady (fst (FastVaultPage.handleImport env m st)))
  /\ (forall env, walletReady (fst (FastVaultPage.handleSend env st)))
  /\ (forall v, walletReady (fst (FastVaultPage.goHome m v st)))
  /\ walletReady (FastVaultPage.goCreate st)
  /\ walletReady (FastVaultPage.goImport st)
  /\ walletReady (FastVaultPage.goBack st).
Proof.
  unfold walletReady. intros W.
  split; [intros H; discriminate H|].
  split; [intros i v; unfold FastVaultPage.init;
          destruct (Sdk.initializeSDK i m) as [m' [sdk|e]];
          [name_loadVaults|]; keep_wallet W|].
  split; [intros env; unfold FastVaultPage.handleCreate; branches; keep_wallet W|].
  split; [intros env; unfold FastVaultPage.handleVerify; branches; try name_loadVaults;
          keep_wallet W|].
  split; [intros env id; unfold FastVaultPage.handleUnlock; branches; keep_wallet W|].
  split; [intros env; unfold FastVaultPage.handleImport; branches; try name_loadVaults;
          keep_wallet W|].
  split; [intros env; unfold FastVaultPage.handleSend; branches; keep_wallet W|].
  split; [intros v; unfold FastVaultPage.goHome; name_loadVaults; keep_wallet W|].
  repeat split; simpl in *; discriminate.
Qed.

Lemma wallet_step_has_a_vault_witness :
  walletReady
    (fst (FastVaultPage.handleSend (demo_page_send (Return "sig")) demo_fast_wallet)).
Proof.
  refine (proj1 (proj2 (proj2 (proj2 (proj2 (proj2 (proj2
    (wallet_step_has_a_vault demo_sdk_ready demo_fast_wallet _))))))) _).
  intros _. split; discriminate.
Defined.

(** X13.  [handleCreate] asks the SDK for a vault only with an email and a
    password typed in.  The error it shows is the message of what was thrown
    - also the 'SDK not initialized...' of [getSDK], in which case the SDK is
    not called - or 'Failed to create vault' when that message is empty, and
    the step does not change; on success the page moves to the verify step
    with the new vault id, having created the vault under the typed name or
    'My Solana Wallet'. *)
Theorem handleCreate_outcomes
    (env : FastVaultPage.CreateEnv) (m : Sdk.Module_state) (st : FastVaultPage.AppState.t) :
  let run := FastVaultPage.handleCreate env m st in
  (truthy_opt (FastVaultPage.input_email env) = false
   \/ truthy_opt (FastVaultPage.input_password env) = false ->
   snd run = []
   /\ FastVaultPage.AppState.error (fst run) = Some "Please enter email and password"
   /\ FastVaultPage.AppState.step (fst run) = FastVaultPage.AppState.step st
   /\ FastVaultPage.AppState.vaultId (fst run) = FastVaultPage.AppState.vaultId st)
  /\ (forall email password,
         FastVaultPage.input_email env = Some email -> email <> "" ->
         FastVaultPage.input_password env = Some password -> password <> "" ->
         (Sdk.sdkInstance m = None ->
          snd run = []
          /\ FastVaultPage.AppState.error (fst run)
             = Some "SDK not initialized. Call initializeSDK() first."
          /\ FastVaultPage.AppState.step (fst run) = FastVaultPage.AppState.step st)
         /\ (forall sdk, Sdk.sdkInstance m = Some sdk ->
             snd run
             = [SdkApi.CreateFastVault
                  (or_else (FastVaultPage.input_name env) "My Solana Wallet") email password]
             /\ (forall vaultId, FastVaultPage.created env = Return vaultId ->
                   FastVaultPage.AppState.step (fst run) = FastVaultPage.step_verify
                   /\ FastVaultPage.AppState.vaultId (fst run) = Some vaultId
                   /\ FastVaultPage.AppState.error (fst run) = None)
             /\ (forall message, FastVaultPage.created env = Throw message ->
                   FastVaultPage.AppState.step (fst run) = FastVaultPage.AppState.step st
                   /\ FastVaultPage.AppState.vaultId (fst run) = FastVaultPage.AppState.vaultId st
                   /\ FastVaultPage.AppState.error (fst run)
                      = Some (if message =? "" then "Failed to create vault" else message)))).
Proof.
  unfold FastVaultPage.handleCreate, SdkApi.createFastVault, Sdk.getSDK. split.
  - intros [H|H]; rewrite H; simpl; rewrite ?orb_true_r; repeat split.
  - intros email password He Ne Hp Np. rewrite He, Hp. simpl. unfold truthy.
    apply String.eqb_neq in Ne, Np. rewrite Ne, Np. simpl. split.
    + intros Hm. rewrite Hm. repeat split.
    + intros sdk Hm. rewrite Hm. split; [now destruct (FastVaultPage.created env)|]. split.
      * intros vaultId Hc. rewrite Hc. repeat split.
      * intros message Hc. rewrite Hc. simpl. unfold FastVaultPage.messageOr, or_else, truthy.
        destruct (message =? ""); repeat split.
Qed.

(** X14.  [handleSend] shows a transaction hash exactly when
    [sendTransaction] returned one: the previous hash is cleared before the
    attempt, a failed attempt shows the thrown message (or 'Transaction
    failed') and no hash, and the page never moves away from its step or
    changes its vault. *)
Theorem handleSend_outcomes
    (env : FastVaultPage.SendEnv) (st : FastVaultPage.AppState.t)
    (vault : SdkApi.FastVault) (destination amount : string) :
  FastVaultPage.AppState.vault st = Some vault ->
  FastVaultPage.input_destination env = Some destination -> destination <> "" ->
  FastVaultPage.input_amount env = Some amount -> amount <> "" ->
  let sent := SdkApi.sendTransaction (FastVaultPage.sdk_send env) vault destination amount "Solana" in
  let run := FastVaultPage.handleSend env st in
  snd run = fst sent
  /\ FastVaultPage.AppState.step (fst run) = FastVaultPage.AppState.step st
  /\ FastVaultPage.AppState.vault (fst run) = Some vault
  /\ FastVaultPage.AppState.loading (fst run) = false
  /\ (forall txHash, snd sent = Return txHash ->
        FastVaultPage.AppState.txHash (fst run) = Some txHash
        /\ FastVaultPage.AppState.error (fst run) = None
        /\ FastVaultPage.AppState.status (fst run) = "Transaction sent!")
  /\ (forall message, snd sent = Throw message ->
        FastVaultPage.AppState.txHash (fst run) = None
        /\ FastVaultPage.AppState.error (fst run)
           = Some (if message =? "" then "Transaction failed" else message)
        /\ FastVaultPage.AppState.status (fst run) = "Transaction failed"
        /\ FastVaultPage.AppState.balance (fst run) = FastVaultPage.AppState.balance st).
Proof.
  intros Hv Hd Nd Ha Na. unfold FastVaultPage.handleSend.
  rewrite Hv, Hd, Ha. simpl truthy_opt. simpl or_else. unfold truthy.
  apply String.eqb_neq in Nd, Na. rewrite Nd, Na. simpl negb. simpl orb. cbv iota.
  destruct (SdkApi.sendTransaction _ _ _ _ _) as [calls [h|e]]; cbv zeta; simpl fst; simpl snd.
  - split; [reflexivity|].
    destruct (truthy_opt _) eqn:T; simpl; rewrite ?Hv;
      repeat split; intros; congruence.
  - simpl. rewrite Hv. repeat split; intros; try congruence.
    match goal with H : Throw _ = Throw _ |- _ => injection H as <- end.
    unfold FastVaultPage.messageOr, or_else, truthy. now destruct (e =? "").
Qed.

Lemma handleSend_outcomes_witness :
  FastVaultPage.AppState.txHash
    (fst (FastVaultPage.handleSend (demo_page_send (Throw "relay timeout")) demo_fast_wallet))
  = None.
Proof.
  destruct (handleSend_outcomes (demo_page_send (Throw "relay timeout")) demo_fast_wallet
              demo_fast_vault "addrX" "0.5" eq_refl eq_refl
              ltac:(discriminate) eq_refl ltac:(discriminate))
    as [_ [_ [_ [_ [_ F]]]]].
  exact (proj1 (F "relay timeout" eq_refl)).
Defined.

(** ** The two-tab page *)

(** X15.  Signing, switching tabs and refreshing a balance never change what
    a device is or holds: after [initiateTransaction], [rejectTransaction],
    [approveTransaction], its timer, [switchTab] and [refreshBalance], each
    device has the id, name, SDK, vault and vault id it had before. *)
Theorem signing_keeps_the_devices (st : SecureWallet.AppState.t) :
  (forall env fromDeviceId,
      sameDevices st (fst (SecureWallet.initiateTransaction env fromDeviceId st)))
  /\ sameDevices st (SecureWallet.rejectTransaction st)
  /\ (forall env approver, sameDevices st (SecureWallet.approveTransaction env approver st))
  /\ sameDevices st (SecureWallet.approveTransaction_timer st)
  /\ (forall id, sameDevices st (SecureWallet.switchTab id st))
  /\ (forall fetched id, sameDevices st (SecureWallet.refreshBalance fetched id st)).
Proof.
  unfold sameDevices. split; [|split; [|split; [|split; [|split]]]].
  - intros env fromDeviceId id. unfold SecureWallet.initiateTransaction.
    branches; destruct fromDeviceId, id; repeat split.
  - intros id. destruct id; repeat split.
  - intros env approver id. unfold SecureWallet.approveTransaction.
    branches; destruct approver, id; repeat split.
  - intros id. destruct id; repeat split.
  - intros id0 id. destruct id; repeat split.
  - intros fetched id0 id. unfold SecureWallet.refreshBalance.
    branches; destruct id0, id; repeat split.
Qed.



(** X17.  The two pages pick the stored vault differently.  [initializeDevice]
    of the two-tab page looks at the first stored vault only and loads it
    when its type is 'secure'; [initializeSDK] of the real-device page loads
    the first vault of type 'secure' wherever it is in the list.  So a secure
    vault stored after a vault of another type is loaded by the second and
    not by the first. *)
Theorem stored_vault_selection :
  (forall (env : SecureWallet.InitEnv) (id : SecureWallet.DeviceId)
          (st : SecureWallet.AppState.t) (vaults : list SecureWallet.StoredVault)
          (address : string),
      SecureWallet.DeviceState.initialized (SecureWallet.deviceOf id st) = false ->
      SecureWallet.sdk_initialize env = Return tt ->
      SecureWallet.sdk_listVaults env = Return vaults ->
      SecureWallet.first_address env = Return address ->
      let device := SecureWallet.deviceOf id (fst (SecureWallet.initializeDevice env id st)) in
      SecureWallet.DeviceState.initialized device = true
      /\ SecureWallet.DeviceState.vault device
         = match vaults with
           | first :: _ =>
               if SecureWallet.stored_type first =? "secure"
               then Some (SecureWallet.stored_vault first) else None
           | [] => None
           end)
  /\ (forall (env : MultiDevice.InitEnv) (st : MultiDevice.AppState.t)
             (vaults : list SecureWallet.StoredVault) (address : string),
         MultiDevice.sdk_initialize env = Return tt ->
         MultiDevice.sdk_listVaults env = Return vaults ->
         MultiDevice.first_address env = Return address ->
         let st' := fst (MultiDevice.initializeSDK env st) in
         MultiDevice.AppState.initialized st' = true
         /\ MultiDevice.AppState.vault st'
            = match MultiDevice.secureVaults vaults with
              | first :: _ => Some (SecureWallet.stored_vault first)
              | [] => MultiDevice.AppState.vault st
              end
         /\ MultiDevice.AppState.step st'
            = match MultiDevice.secureVaults vaults with
              | _ :: _ => MultiDevice.step_wallet
              | [] => MultiDevice.step_home
              end).
Proof.
  split.
  - intros env id st vaults address Hi He Hl Ha.
    unfold SecureWallet.initializeDevice. rewrite Hi, He, Hl.
    destruct vaults as [|first rest]; [destruct id; repeat split|].
    destruct (SecureWallet.stored_type first =? "secure");
      [rewrite Ha|]; destruct id; repeat split.
  - intros env st vaults address He Hl Ha.
    unfold MultiDevice.initializeSDK. rewrite He, Hl.
    destruct (MultiDevice.secureVaults vaults) as [|first rest]; [repeat split|].
    rewrite Ha. repeat split.
Qed.

Lemma stored_vault_selection_witness :
  SecureWallet.DeviceState.vault
    (SecureWallet.AppState.deviceA
       (fst (SecureWallet.initializeDevice (demo_init demo_stored 0) SecureWallet.device_a
               SecureWallet.state))) = None
  /\ MultiDevice.AppState.vault
       (fst (MultiDevice.initializeSDK (demo_page_init demo_stored) MultiDevice.state))
     = Some demo_vault.
Proof.
  destruct stored_vault_selection as [S M].
  split.
  - exact (proj2 (S (demo_init demo_stored 0) SecureWallet.device_a SecureWallet.state
                    demo_stored "So1anaSender" eq_refl eq_refl eq_refl eq_refl)).
  - exact (proj1 (proj2 (M (demo_page_init demo_stored) MultiDevice.state
                           demo_stored "So1anaSender" eq_refl eq_refl eq_refl))).
Defined.

(** What [initializeDevice] writes depends on the SDK's answers only, and
    it writes it to its own device. *)
Lemma initializeDevice_shape (env : SecureWallet.InitEnv) (id : SecureWallet.DeviceId) :
  exists updates calls, forall st,
    SecureWallet.initializeDevice env id st
    = if SecureWallet.DeviceState.initialized (SecureWallet.deviceOf id st)
      then (st, [])
      else (SecureWallet.setDeviceState id updates
              (SecureWallet.setDeviceState id
                 [SecureWallet.Loading true; SecureWallet.Status "Initializing SDK..."] st),
            calls).
Proof.
  unfold SecureWallet.initializeDevice, SecureWallet.initializeDevice_failed,
    SecureWallet.initializeDevice_done.
  destruct (SecureWallet.sdk_initialize env);
    [destruct (SecureWallet.sdk_listVaults env) as [[|f r]|];
     [|destruct (SecureWallet.stored_type f =? "secure");
       [destruct (SecureWallet.first_address env)|]|]|];
    eexists; eexists; intros st;
    destruct (SecureWallet.DeviceState.initialized _); reflexivity.
Qed.

(** X18.  Initialising the two devices in either order gives the same
    state: each run writes its own device only. *)
Theorem initializeDevice_commutes
    (envA envB : SecureWallet.InitEnv) (st : SecureWallet.AppState.t) :
  fst (SecureWallet.initializeDevice envB SecureWallet.device_b
         (fst (SecureWallet.initializeDevice envA SecureWallet.device_a st)))
  = fst (SecureWallet.initializeDevice envA SecureWallet.device_a
           (fst (SecureWallet.initializeDevice envB SecureWallet.device_b st)))
  /\ snd (SecureWallet.initializeDevice envB SecureWallet.device_b
            (fst (SecureWallet.initializeDevice envA SecureWallet.device_a st)))
     = snd (SecureWallet.initializeDevice envB SecureWallet.device_b st)
  /\ SecureWallet.AppState.deviceB
       (fst (SecureWallet.initializeDevice envA SecureWallet.device_a st))
     = SecureWallet.AppState.deviceB st.
Proof.
  destruct (initializeDevice_shape envA SecureWallet.device_a) as [ua [ca HA]].
  destruct (initializeDevice_shape envB SecureWallet.device_b) as [ub [cb HB]].
  rewrite !HA, !HB. simpl SecureWallet.deviceOf.
  destruct (SecureWallet.DeviceState.initialized (SecureWallet.AppState.deviceA st)) eqn:IA;
    destruct (SecureWallet.DeviceState.initialized (SecureWallet.AppState.deviceB st)) eqn:IB;
    simpl; rewrite ?IA, ?IB; repeat split.
Qed.

(** X19.  [initializeDevice] runs once per device: on an initialised device
    it does nothing and calls nothing, so a run that ended initialised is
    never repeated; a run whose [sdk.initialize()] rejects leaves the device
    uninitialised, without SDK and vault changes, not loading, showing the
    message. *)
Theorem initializeDevice_runs_once
    (env : SecureWallet.InitEnv) (id : SecureWallet.DeviceId) (st : SecureWallet.AppState.t) :
  let st' := fst (SecureWallet.initializeDevice env id st) in
  (SecureWallet.DeviceState.initialized (SecureWallet.deviceOf id st) = true ->
   SecureWallet.initializeDevice env id st = (st, []))
  /\ (SecureWallet.DeviceState.initialized (SecureWallet.deviceOf id st') = true ->
      forall again, SecureWallet.initializeDevice again id st' = (st', []))
  /\ (forall message,
         SecureWallet.DeviceState.initialized (SecureWallet.deviceOf id st) = false ->
         SecureWallet.sdk_initialize env = Throw message ->
         SecureWallet.DeviceState.initialized (SecureWallet.deviceOf id st') = false
         /\ SecureWallet.DeviceState.sdk (SecureWallet.deviceOf id st')
            = SecureWallet.DeviceState.sdk (SecureWallet.deviceOf id st)
         /\ SecureWallet.DeviceState.vault (SecureWallet.deviceOf id st')
            = SecureWallet.DeviceState.vault (SecureWallet.deviceOf id st)
         /\ SecureWallet.DeviceState.loading (SecureWallet.deviceOf id st') = false
         /\ SecureWallet.DeviceState.error (SecureWallet.deviceOf id st') = Some message).
Proof.
  assert (O : forall e s, SecureWallet.DeviceState.initialized (SecureWallet.deviceOf id s) = true ->
                          SecureWallet.initializeDevice e id s = (s, [])).
  { intros e s H. unfold SecureWallet.initializeDevice. now rewrite H. }
  split; [apply O|]. split; [intros H again; now apply O|].
  intros message Hi He. unfold SecureWallet.initializeDevice. rewrite Hi, He.
  destruct id; simpl in *; repeat split; assumption.
Qed.

(** X20.  On both pages [deleteVault] needs the user and the SDK to agree:
    when the confirmation is declined nothing is called and nothing changes;
    when the SDK fails to delete, the device keeps its vault and vault id and
    shows the SDK's message. *)
Theorem deleteVault_needs_consent_and_success :
  (forall (env : SecureWallet.DeleteEnv) (id : SecureWallet.DeviceId)
          (st : SecureWallet.AppState.t),
      (SecureWallet.confirm env = false -> SecureWallet.deleteVault env id st = (st, []))
      /\ (forall message, SecureWallet.sdk_deleteVault env = Throw message ->
            let device := SecureWallet.deviceOf id (fst (SecureWallet.deleteVault env id st)) in
            SecureWallet.DeviceState.vault device
            = SecureWallet.DeviceState.vault (SecureWallet.deviceOf id st)
            /\ SecureWallet.DeviceState.vaultId device
               = SecureWallet.DeviceState.vaultId (SecureWallet.deviceOf id st)
            /\ (snd (SecureWallet.deleteVault env id st) <> [] ->
                SecureWallet.DeviceState.error device = Some message)))
  /\ (forall (env : MultiDevice.DeleteEnv) (st : MultiDevice.AppState.t),
         (MultiDevice.confirm env = false -> MultiDevice.deleteVault env st = (st, []))
         /\ (forall message, MultiDevice.sdk_deleteVault env = Throw message ->
               let st' := fst (MultiDevice.deleteVault env st) in
               MultiDevice.AppState.vault st' = MultiDevice.AppState.vault st
               /\ MultiDevice.AppState.vaultId st' = MultiDevice.AppState.vaultId st
               /\ MultiDevice.AppState.step st' = MultiDevice.AppState.step st
               /\ (snd (MultiDevice.deleteVault env st) <> [] ->
                   MultiDevice.AppState.error st' = Some message))).
Proof.
  split.
  - intros env id st. unfold SecureWallet.deleteVault. split.
    + intros C. rewrite C. simpl negb. branches; reflexivity.
    + intros message D. rewrite D.
      branches; destruct id; simpl in *; repeat split; congruence.
  - intros env st. unfold MultiDevice.deleteVault. split.
    + intros C. rewrite C. simpl negb. branches; reflexivity.
    + intros message D. rewrite D.
      branches; simpl in *; repeat split; congruence.
Qed.

Section KeygenSessionFacts.

Import SecureWallet.


End KeygenSessionFacts.




(** ** The real-device page *)

Section MultiDeviceMoreFacts.

Import MultiDevice.


Lemma testCallbacks_keep (sender : string) (events : Datatypes.list SignEvent)
    (st : AppState.t) :
  let st' := fold_left (testCallback sender) events st in
  AppState.txHash st' = AppState.txHash st
  /\ AppState.step st' = AppState.step st
  /\ AppState.signingInProgress st' = AppState.signingInProgress st
  /\ AppState.vault st' = AppState.vault st.
Proof.
  revert st; induction events as [|e events IH]; intros st; [repeat split|].
  simpl. destruct (IH (testCallback sender st e)) as [A [B [C D]]].
  cbv zeta. rewrite A, B, C, D.
  destruct e as [q [url|m]|i t r]; repeat split.
Qed.

Lemma testCallbacks_keep_error (sender : string) (events : Datatypes.list SignEvent)
    (st : AppState.t) :
  AppState.error (fold_left (testCallback sender) events st) = AppState.error st.
Proof.
  revert st; induction events as [|e events IH]; intros st; [reflexivity|].
  simpl. rewrite IH. destruct e as [q [url|m]|i t r]; reflexivity.
Qed.

End MultiDeviceMoreFacts.



(** X23.  [testSigningQR] never broadcasts and never shows a transaction
    hash.  It prepares one fixed transaction, 1000000 lamports to the native
    mint address; and when the test signing succeeds the page stays on the
    signing step with the signing still marked in progress (only the loading
    flag is reset), whereas a failure returns it to the wallet step. *)
Theorem testSigningQR_never_broadcasts (env : MultiDevice.TestEnv) (st : MultiDevice.AppState.t) :
  let run := MultiDevice.testSigningQR env st in
  (forall c kp signature, ~ In (MultiDevice.BroadcastTx c kp signature) (snd run))
  /\ (forall coin receiver n,
         In (MultiDevice.PrepareSendTx coin receiver n) (snd run) ->
         receiver = "So11111111111111111111111111111111111111112" /\ n = 1000000%Z)
  /\ (forall vault sdk,
         MultiDevice.AppState.vault st = Some vault ->
         MultiDevice.AppState.sdk st = Some sdk ->
         MultiDevice.AppState.txHash (fst run) = None
         /\ MultiDevice.AppState.loading (fst run) = false
         /\ (forall sender kp hs signature,
                MultiDevice.test_sender_address env = Return sender ->
                MultiDevice.test_prepareSendTx env = Return kp ->
                MultiDevice.test_extractMessageHashes env = Return hs ->
                MultiDevice.test_sign env = Return signature ->
                MultiDevice.AppState.step (fst run) = MultiDevice.step_signing
                /\ MultiDevice.AppState.signingInProgress (fst run) = true
                /\ MultiDevice.AppState.error (fst run) = None)
         /\ (forall message,
                MultiDevice.test_sender_address env = Throw message
                \/ MultiDevice.test_prepareSendTx env = Throw message
                \/ MultiDevice.test_extractMessageHashes env = Throw message
                \/ MultiDevice.test_sign env = Throw message ->
                MultiDevice.AppState.step (fst run) = MultiDevice.step_wallet
                /\ MultiDevice.AppState.signingInProgress (fst run) = false
                /\ exists thrown, MultiDevice.AppState.error (fst run) = Some thrown)).
Proof.
  unfold MultiDevice.testSigningQR.
  destruct (MultiDevice.AppState.vault st) as [v|];
    [destruct (MultiDevice.AppState.sdk st) as [s|]|];
    [| cbv zeta; simpl;
       (split; [intros c kp sg H; exact H|]);
       (split; [intros coin r n H; destruct H|]);
       intros vault sdk H1 H2; discriminate ..].
  destruct (MultiDevice.test_sender_address env) as [sender|m1];
    [destruct (MultiDevice.test_prepareSendTx env) as [kp0|m2];
     [destruct (MultiDevice.test_extractMessageHashes env) as [hs0|m3];
      [match goal with
       | |- context [fold_left (MultiDevice.testCallback ?sd) ?ev ?s0] =>
           destruct (testCallbacks_keep sd ev s0) as [KT [KS [KP _]]];
           pose proof (testCallbacks_keep_error sd ev s0) as KE;
           set (after := fold_left (MultiDevice.testCallback sd) ev s0) in *
       end;
       destruct (MultiDevice.test_sign env) as [s1|m4]|]|]|];
    cbv zeta; simpl fst; simpl snd;
    (split; [intros c kp sg H; in_calls|]);
    (split; [intros coin r n H; in_calls; split; reflexivity|]);
    intros vault sdk _ _; simpl; rewrite ?KT, ?KS, ?KP, ?KE; simpl;
    (split; [reflexivity|]); (split; [reflexivity|]);
    (split; [intros sd kp hs sg E1 E2 E3 E4;
             first [discriminate | split; [reflexivity | split; reflexivity]]|]);
    intros message [E|[E|[E|E]]];
    first [discriminate E
          | split; [reflexivity | split; [reflexivity | eexists; reflexivity]]].
Qed.

(** X24.  On the real-device page the vault is written to the state before
    its address is asked: when the keygen resolves and the address lookup
    then throws, [createSecureVault] leaves the new vault and its id in the
    state, with the page back on the home step, not loading, showing the
    message. *)
Theorem multi_device_vault_kept_when_address_fails
    (env : MultiDevice.CreateVaultEnv) (st : MultiDevice.AppState.t)
    (sdk : MultiDevice.Vultisig) (vault : MultiDevice.SecureVault)
    (vaultId message : string) :
  MultiDevice.AppState.sdk st = Some sdk ->
  MultiDevice.keygen_result env = Return (vault, vaultId) ->
  MultiDevice.created_address env = Throw message ->
  let st' := fst (MultiDevice.createSecureVault env st) in
  MultiDevice.AppState.vault st' = Some vault
  /\ MultiDevice.AppState.vaultId st' = Some vaultId
  /\ MultiDevice.AppState.solanaAddress st' = MultiDevice.AppState.solanaAddress st
  /\ MultiDevice.AppState.step st' = MultiDevice.step_home
  /\ MultiDevice.AppState.loading st' = false
  /\ MultiDevice.AppState.error st' = Some message
  /\ MultiDevice.AppState.status st' = "Vault creation failed".
Proof.
  intros Hs Hk Ha. unfold MultiDevice.createSecureVault. rewrite Hs, Hk, Ha. simpl.
  repeat split.
  unfold MultiDevice.createSecureVault_awaiting.
  induction (MultiDevice.keygen_events env) as [|e es IH] using rev_ind; [reflexivity|].
  rewrite fold_left_app. simpl. destruct e as [p|q [url|m]|i t r]; exact IH.
Qed.

Lemma multi_device_vault_kept_when_address_fails_witness :
  MultiDevice.AppState.vault
    (fst (MultiDevice.createSecureVault
            {| MultiDevice.vault_name_input := None;
               MultiDevice.vault_password_input := None;
               MultiDevice.device_count_input := Some "3";
               MultiDevice.parseInt := fun _ => 3%Z;
               MultiDevice.keygen_events := [];
               MultiDevice.keygen_result := Return (demo_vault, "vault-1");
               MultiDevice.created_address := Throw "address derivation failed";
               MultiDevice.created_balance := None |}
            (MultiDevice.setSdk (Some 0) true MultiDevice.state)))
  = Some demo_vault.
Proof.
  exact (proj1 (multi_device_vault_kept_when_address_fails
                  {| MultiDevice.vault_name_input := None;
                     MultiDevice.vault_password_input := None;
                     MultiDevice.device_count_input := Some "3";
                     MultiDevice.parseInt := fun _ => 3%Z;
                     MultiDevice.keygen_events := [];
                     MultiDevice.keygen_result := Return (demo_vault, "vault-1");
                     MultiDevice.created_address := Throw "address derivation failed";
                     MultiDevice.created_balance := None |}
                  (MultiDevice.setSdk (Some 0) true MultiDevice.state)
                  0 demo_vault "vault-1" "address derivation failed"
                  eq_refl eq_refl eq_refl)).
Defined.

Lemma cancelSigning_does_not_stop_sign_witness :
  MultiDevice.AppState.txHash
    (fst (MultiDevice.sendTransaction_settle
            (demo_send (Some "addrX") (Some "0.5") (Return "sig"))
            {| MultiDevice.scope_toAddress := "addrX";
               MultiDevice.scope_senderAddress := "So1anaSender";
               MultiDevice.scope_amountBaseUnits := 500000000;
               MultiDevice.scope_keysignPayload := {| SecureWallet.encoded := "keysign" |};
               MultiDevice.scope_messageHashes := ["a1b2"] |}
            (MultiDevice.cancelSigning demo_wallet)))
  = Some "5xTxHash".
Proof.
  exact (proj1 (proj2
    (cancelSigning_does_not_stop_sign
       (demo_send (Some "addrX") (Some "0.5") (Return "sig"))
       {| MultiDevice.scope_toAddress := "addrX";
          MultiDevice.scope_senderAddress := "So1anaSender";
          MultiDevice.scope_amountBaseUnits := 500000000;
          MultiDevice.scope_keysignPayload := {| SecureWallet.encoded := "keysign" |};
          MultiDevice.scope_messageHashes := ["a1b2"] |}
       demo_wallet "sig" "5xTxHash" eq_refl eq_refl))).
Defined.

Lemma initializeSDK_success_witness :
  Sdk.getSDK demo_sdk_ready = Return 0
  /\ forall outcome, Sdk.initializeSDK outcome demo_sdk_ready = (demo_sdk_ready, Return 0).
Proof.
  pose proof (initializeSDK_success Sdk.loaded eq_refl) as H.
  simpl in H. destruct H as [_ [G [_ C]]].
  split; [exact G | exact C].
Defined.
